(** * Binance data fetcher: a shallow embedding and its verified properties

    The development follows the two source files of the repository:

    - [binance_data_fetcher/fetch_data.py]: the class [BinanceDataFetcher]
      with [__init__], [fetch_and_save], [run_continuous_fetch] and
      [fetch_all_data], and the module functions [main] and [start_fetcher];
    - [start_binance_data_fetcher.py]: the import guard, [get_user_input],
      [display_summary] and [main].

    Python code is effectful: it reads the clock, the console and the
    network, writes files, sleeps and raises exceptions.  The embedding is
    a state-and-exception monad over an explicit [World]; everything the
    environment decides (network replies and latencies, disk faults,
    Ctrl-C, the time zone) is read from an oracle record [Env].

    Idealisations, stated once:
    - a Python [float] is a rational, an infinity or NaN ([PyFloat]);
      rounding, overflow and signed zeros are not modelled;
    - [print] and [time.time] neither fail nor take time; time passes only
      inside [requests.get] (the oracle's latency) and [time.sleep] (exactly
      the requested duration);
    - console output is a structured message, not formatted text. *)

From Stdlib Require Import ZArith QArith Qround Qabs Lqa String Ascii List Lia Bool.
From Stdlib Require Import DecimalString DecimalZ.
From stdpp Require Import base gmap strings.
Import ListNotations.
Open Scope string_scope.
Open Scope list_scope.

(** ** Python floats *)

Inductive PyFloat : Type :=
| Fin (q : Q)
| PInf
| NInf
| NaN.

Module Float.

Definition sign (a : PyFloat) : option comparison :=
  match a with
  | Fin q => Some (q ?= 0)%Q
  | PInf => Some Gt
  | NInf => Some Lt
  | NaN => None
  end.

Definition sign_mul (s t : comparison) : comparison :=
  match s, t with
  | Eq, _ | _, Eq => Eq
  | Gt, Gt | Lt, Lt => Gt
  | _, _ => Lt
  end.

Definition of_sign (c : comparison) : PyFloat :=
  match c with Gt => PInf | Lt => NInf | Eq => NaN end.

Definition mul (a b : PyFloat) : PyFloat :=
  match a, b with
  | Fin x, Fin y => Fin (x * y)
  | _, _ =>
      match sign a, sign b with
      | Some s, Some t => of_sign (sign_mul s t)
      | _, _ => NaN
      end
  end.

Definition add (a b : PyFloat) : PyFloat :=
  match a, b with
  | Fin x, Fin y => Fin (x + y)
  | NaN, _ | _, NaN => NaN
  | PInf, NInf | NInf, PInf => NaN
  | PInf, _ | _, PInf => PInf
  | NInf, _ | _, NInf => NInf
  end.

Definition neg (a : PyFloat) : PyFloat :=
  match a with
  | Fin x => Fin (- x)
  | PInf => NInf
  | NInf => PInf
  | NaN => NaN
  end.

Definition sub (a b : PyFloat) : PyFloat :=
  match a, b with
  | Fin x, Fin y => Fin (x - y)
  | _, _ => add a (neg b)
  end.

(** [a < b]; every comparison with NaN is false. *)
Definition ltb (a b : PyFloat) : bool :=
  match a, b with
  | NaN, _ | _, NaN => false
  | Fin x, Fin y => if Qlt_le_dec x y then true else false
  | PInf, _ => false
  | _, PInf => true
  | NInf, NInf => false
  | NInf, _ => true
  | Fin _, NInf => false
  end.

(** [a <= b]. *)
Definition leb (a b : PyFloat) : bool :=
  match a, b with
  | NaN, _ | _, NaN => false
  | Fin x, Fin y => if Qlt_le_dec y x then false else true
  | NInf, _ => true
  | _, PInf => true
  | PInf, _ => false
  | Fin _, NInf => false
  end.

(** The builtin [min(a, b)]: the first argument unless the second is
    strictly smaller. *)
Definition min (a b : PyFloat) : PyFloat :=
  if ltb b a then b else a.

(** [a / b] for floats; [None] stands for [ZeroDivisionError]. *)
Definition div (a b : PyFloat) : option PyFloat :=
  match a, b with
  | _, Fin y =>
      if Qeq_bool y 0 then None
      else match a with
           | Fin x => Some (Fin (x / y))
           | NaN => Some NaN
           | _ =>
               match sign a with
               | Some s => Some (of_sign (sign_mul s (y ?= 0)%Q))
               | None => Some NaN
               end
           end
  | NaN, _ | _, NaN => Some NaN
  | Fin _, _ => Some (Fin 0)
  | _, _ => Some NaN
  end.

(** Truncation toward zero, the rounding of [int(x)]. *)
Definition trunc (q : Q) : Z :=
  if Qlt_le_dec q 0 then Qceiling q else Qfloor q.

Definition of_Z (z : Z) : PyFloat := Fin (inject_Z z).

End Float.

(** ** Exceptions *)

Inductive Exn : Type :=
| KeyboardInterrupt
| EOFError
| ValueError
| OverflowError
| ZeroDivisionError
| OSError
| ConnectionError
| Timeout
| HTTPError (status : Z)
| JSONDecodeError.

(** [isinstance(e, Exception)]: of the exceptions above only
    [KeyboardInterrupt] derives from [BaseException] directly. *)
Definition is_Exception (e : Exn) : bool :=
  match e with
  | KeyboardInterrupt => false
  | _ => true
  end.

(** [isinstance(e, requests.exceptions.RequestException)].  The error that
    [Response.json] raises is a [RequestException] from requests 2.27 on
    and a plain [ValueError] before; the flag says which library is
    installed. *)
Definition is_RequestException (json_error_is_request_exception : bool) (e : Exn) : bool :=
  match e with
  | ConnectionError | Timeout | HTTPError _ => true
  | JSONDecodeError => json_error_is_request_exception
  | _ => false
  end.

(** ** JSON documents

    Parsing and printing JSON is the work of the [json] library; the
    program only passes the parsed document from [response.json()] to
    [json.dump].  The library is an interface here: a type of documents, the
    parser, the printer used with [indent=2], and the library's contract
    that what it prints it parses back. *)
Class JsonCodec : Type := {
  Json : Type;
  json_loads : string -> option Json;
  json_dumps : Json -> string;
  json_loads_dumps : forall j, json_loads (json_dumps j) = Some j
}.

(** ** Dates *)

Record DateTime : Type := {
  year : Z;
  month : Z;
  day : Z;
  hour : Z;
  minute : Z;
  second : Z
}.

(** The ranges of the fields of a [datetime] object, with the year at
    least 1000 so that [%Y] has four digits on every platform. *)
Definition valid_datetime (d : DateTime) : bool :=
  ((1000 <=? year d) && (year d <=? 9999) &&
   (1 <=? month d) && (month d <=? 12) &&
   (1 <=? day d) && (day d <=? 31) &&
   (0 <=? hour d) && (hour d <=? 23) &&
   (0 <=? minute d) && (minute d <=? 59) &&
   (0 <=? second d) && (second d <=? 59))%Z.

Definition digit_char (n : nat) : ascii := ascii_of_nat (48 + n mod 10).

(** The decimal digits of [n], most significant first; [fuel] bounds the
    number of digits. *)
Fixpoint decimal_aux (fuel n : nat) (acc : string) : string :=
  match fuel with
  | O => acc
  | S fuel' =>
      let acc' := String (digit_char n) acc in
      if (n <? 10)%nat then acc' else decimal_aux fuel' (n / 10) acc'
  end.

Definition decimal (n : nat) : string := decimal_aux (S n) n "".

Fixpoint zeros (k : nat) : string :=
  match k with
  | O => ""
  | S k' => String "0" (zeros k')
  end.

(** [%0wd] for a number that is not negative: zero padding up to a
    minimal width, never truncating. *)
Definition zero_pad (width : nat) (n : Z) : string :=
  let s := decimal (Z.to_nat n) in
  zeros (width - String.length s) +:+ s.

(** [d.strftime("%Y%m%d_%H%M%S")]. *)
Definition strftime (d : DateTime) : string :=
  zero_pad 4 (year d) +:+ zero_pad 2 (month d) +:+ zero_pad 2 (day d) +:+ "_" +:+
  zero_pad 2 (hour d) +:+ zero_pad 2 (minute d) +:+ zero_pad 2 (second d).

Definition is_digit (c : ascii) : bool :=
  let n := nat_of_ascii c in (48 <=? n)%nat && (n <=? 57)%nat.

Fixpoint all_digits (s : string) : bool :=
  match s with
  | EmptyString => true
  | String c s' => is_digit c && all_digits s'
  end.

(** The shape [YYYYMMDD_HHMMSS]: eight digits, an underscore, six digits. *)
Definition is_timestamp (s : string) : bool :=
  (String.length s =? 15)%nat &&
  all_digits (substring 0 8 s) &&
  String.eqb (substring 8 1 s) "_" &&
  all_digits (substring 9 6 s).

(** Civil date of a number of days since 1970-01-01 (proleptic Gregorian
    calendar), used for the UTC clock of the examples. *)
Definition civil_from_days (days : Z) : Z * Z * Z :=
  let z := (days + 719468)%Z in
  let era := (z / 146097)%Z in
  let doe := (z - era * 146097)%Z in
  let yoe := ((doe - doe / 1460 + doe / 36524 - doe / 146096) / 365)%Z in
  let y := (yoe + era * 400)%Z in
  let doy := (doe - (365 * yoe + yoe / 4 - yoe / 100))%Z in
  let mp := ((5 * doy + 2) / 153)%Z in
  let d := (doy - (153 * mp + 2) / 5 + 1)%Z in
  let m := (if (mp <? 10)%Z then mp + 3 else mp - 9)%Z in
  ((if (m <=? 2)%Z then y + 1 else y)%Z, m, d).

Definition utc_datetime (t : Q) : DateTime :=
  let s := Qfloor t in
  let '(y, m, d) := civil_from_days (s / 86400)%Z in
  let r := (s mod 86400)%Z in
  {| year := y; month := m; day := d;
     hour := (r / 3600)%Z; minute := ((r mod 3600) / 60)%Z;
     second := (r mod 60)%Z |}.

(** ** Paths (POSIX) *)

Fixpoint split_on (sep : ascii) (s : string) (cur : string) : list string :=
  match s with
  | EmptyString => [String.rev cur]
  | String c s' =>
      if Ascii.eqb c sep then String.rev cur :: split_on sep s' ""
      else split_on sep s' (String c cur)
  end.

Definition starts_with_slash (s : string) : bool :=
  match s with
  | String "/" _ => true
  | _ => false
  end.

(** [s.endswith(suffix)]. *)
Definition endswith (s suffix : string) : bool :=
  let n := String.length s in
  let m := String.length suffix in
  (m <=? n)%nat && String.eqb (substring (n - m) m s) suffix.

(** [os.path.join(a, b)]. *)
Definition os_path_join (a b : string) : string :=
  if starts_with_slash b then b
  else if String.eqb a "" || endswith a "/" then a +:+ b
  else a +:+ "/" +:+ b.

(** The components of a normalised path, innermost first. *)
Fixpoint norm_components (absolute : bool) (parts : list string) (stack : list string)
  : list string :=
  match parts with
  | [] => stack
  | p :: parts' =>
      if String.eqb p "" || String.eqb p "." then norm_components absolute parts' stack
      else if String.eqb p ".." then
        match stack with
        | top :: rest =>
            if String.eqb top ".." then norm_components absolute parts' (p :: stack)
            else norm_components absolute parts' rest
        | [] =>
            if absolute then norm_components absolute parts' []
            else norm_components absolute parts' [p]
        end
      else norm_components absolute parts' (p :: stack)
  end.

Fixpoint join_components (parts : list string) : string :=
  match parts with
  | [] => ""
  | [p] => p
  | p :: rest => p +:+ "/" +:+ join_components rest
  end.

(** [os.path.normpath(p)]. *)
Definition os_path_normpath (p : string) : string :=
  let absolute := starts_with_slash p in
  let body := join_components (rev (norm_components absolute (split_on "/" p "") [])) in
  if absolute then "/" +:+ body
  else if String.eqb body "" then "." else body.

(** [os.path.abspath(p)] in the working directory [cwd]. *)
Definition os_path_abspath (cwd p : string) : string :=
  os_path_normpath (os_path_join cwd p).

(** ** The world and its oracles *)

Inductive Method : Type := GET | POST | PUT | DELETE.

Record Response : Type := {
  status_code : Z;
  text : string
}.

Inductive NetReply : Type :=
| Unreachable
| TimedOut
| Responded (r : Response).

(** Console messages, one constructor per [print] (or block of prints). *)
Inductive Msg : Type :=
| MsgDataFolder (abspath : string)
| MsgFetching (endpoint : string)
| MsgSaved (filepath : string)
| MsgFetchError (endpoint : string) (e : Exn)
| MsgSaveError (e : Exn)
| MsgStarting (runtime_hours save_interval_minutes : PyFloat)
| MsgWillStopAt (will_stop_at : DateTime)
| MsgFetchNo (fetch_count : nat) (current_time : DateTime)
| MsgSleeping (sleep_time : PyFloat) (next_fetch_time : DateTime)
| MsgCompleted (fetch_count : nat)
| MsgSingleStart
| MsgSingleDone (abspath : string)
| MsgConfigBanner
| MsgNotPositive
| MsgNotNumber
| MsgSummaryHeader (runtime_hours save_interval_minutes : PyFloat)
| MsgEstimates (estimated_fetches estimated_total_files : Z)
| MsgYesOrNo
| MsgWelcome
| MsgReconfigure
| MsgStartingFetcher (current_time : string)
| MsgSuccess
| MsgInterrupted
| MsgError (e : Exn)
| MsgImportError.

Inductive Event : Type :=
| Print (m : Msg)
| Prompt (question : string)
| Http (method : Method) (url : string)
| OpenW (abspath : string)
| WriteAll (abspath : string) (content : string)
| WritePartial (abspath : string) (content : string)
| Makedirs (abspath : string)
| Sleep (seconds : Q).

Record World : Type := {
  clock : Q;                       (* time.time(), seconds since the epoch *)
  ticks : nat;                     (* blocking calls made so far *)
  stdin : list string;             (* console lines still to be read *)
  cwd : string;                    (* os.getcwd() *)
  dirs : gset string;              (* directories, by absolute path *)
  files : gmap string string;      (* regular files, by absolute path *)
  trace : list (Q * Event)         (* what happened, oldest first, with its time *)
}.

(** What the environment answers to the [n]th blocking call. *)
Record Env : Type := {
  interrupt : nat -> bool;               (* Ctrl-C arrives during the call *)
  net : nat -> string -> NetReply;       (* outcome of an HTTP request *)
  latency : nat -> Q;                    (* seconds the request takes *)
  open_fails : nat -> bool;              (* open(path, 'w') raises OSError *)
  write_fails : nat -> option nat;       (* the write raises after that many characters *)
  makedirs_fails : nat -> bool;          (* os.makedirs raises OSError *)
  localtime : Q -> DateTime;             (* the local time of a timestamp *)
  json_error_is_request_exception : bool;
  import_fails : bool                    (* fetch_data cannot be imported *)
}.

(** ** The monad: state, exceptions and fuel for [while] loops *)

Inductive Res (A : Type) : Type :=
| Ok (a : A) (w : World)
| Raised (e : Exn) (w : World)
| OutOfFuel.
Arguments Ok {A} a w.
Arguments Raised {A} e w.
Arguments OutOfFuel {A}.

Definition M (A : Type) : Type := World -> Res A.

Definition ret {A : Type} (a : A) : M A := fun w => Ok a w.

Definition bind {A B : Type} (c : M A) (k : A -> M B) : M B :=
  fun w =>
    match c w with
    | Ok a w' => k a w'
    | Raised e w' => Raised e w'
    | OutOfFuel => OutOfFuel
    end.

Definition raise {A : Type} (e : Exn) : M A := fun w => Raised e w.

(** [try: c except ...]: the handler returns [None] for an exception that
    no clause matches. *)
Definition try_except {A : Type} (c : M A) (handler : Exn -> option (M A)) : M A :=
  fun w =>
    match c w with
    | Raised e w' =>
        match handler e with
        | Some h => h w'
        | None => Raised e w'
        end
    | r => r
    end.

Declare Scope monad_scope.
Delimit Scope monad_scope with monad.
Notation "x <- c ;; k" := (bind c (fun x => k))
  (at level 100, c at next level, right associativity) : monad_scope.
Notation "c ;; k" := (bind c (fun _ => k))
  (at level 100, right associativity) : monad_scope.
Open Scope monad_scope.

Definition set_clock (t : Q) (w : World) : World :=
  {| clock := t; ticks := ticks w; stdin := stdin w; cwd := cwd w;
     dirs := dirs w; files := files w; trace := trace w |}.

Definition set_ticks (n : nat) (w : World) : World :=
  {| clock := clock w; ticks := n; stdin := stdin w; cwd := cwd w;
     dirs := dirs w; files := files w; trace := trace w |}.

Definition set_stdin (l : list string) (w : World) : World :=
  {| clock := clock w; ticks := ticks w; stdin := l; cwd := cwd w;
     dirs := dirs w; files := files w; trace := trace w |}.

Definition set_dirs (d : gset string) (w : World) : World :=
  {| clock := clock w; ticks := ticks w; stdin := stdin w; cwd := cwd w;
     dirs := d; files := files w; trace := trace w |}.

Definition set_files (f : gmap string string) (w : World) : World :=
  {| clock := clock w; ticks := ticks w; stdin := stdin w; cwd := cwd w;
     dirs := dirs w; files := f; trace := trace w |}.

Definition log (e : Event) (w : World) : World :=
  {| clock := clock w; ticks := ticks w; stdin := stdin w; cwd := cwd w;
     dirs := dirs w; files := files w; trace := trace w ++ [(clock w, e)] |}.

(** ** Library calls *)

Section Primitives.
Context {codec : JsonCodec} (env : Env).

Definition emit (e : Event) : M unit := fun w => Ok tt (log e w).

Definition print (m : Msg) : M unit := emit (Print m).

(** Entering a blocking call: it gets the next oracle index, and a
    pending Ctrl-C surfaces as [KeyboardInterrupt]. *)
Definition blocking : M nat :=
  fun w =>
    let n := ticks w in
    let w' := set_ticks (S n) w in
    if interrupt env n then Raised KeyboardInterrupt w' else Ok n w'.

Definition time_time : M PyFloat := fun w => Ok (Fin (clock w)) w.

(** [time.sleep(secs)]: rejects NaN and negative values with
    [ValueError] and infinities with [OverflowError]. *)
Definition time_sleep (secs : PyFloat) : M unit :=
  match secs with
  | NaN | NInf => raise ValueError
  | PInf => raise OverflowError
  | Fin d =>
      if Qlt_le_dec d 0 then raise ValueError
      else
        _ <- blocking ;;
        emit (Sleep d) ;;
        fun w => Ok tt (set_clock (clock w + d) w)
  end.

Definition datetime_now : M DateTime := fun w => Ok (localtime env (clock w)) w.

(** Timestamps that [datetime.fromtimestamp] can represent: years 1 to
    9999. *)
Definition min_timestamp : Q := (-62135596800)%Q.
Definition max_timestamp : Q := 253402300800%Q.

Definition datetime_fromtimestamp (t : PyFloat) : M DateTime :=
  match t with
  | NaN => raise ValueError
  | PInf | NInf => raise OverflowError
  | Fin q =>
      if Qlt_le_dec q min_timestamp then raise ValueError
      else if Qlt_le_dec q max_timestamp then ret (localtime env q)
      else raise ValueError
  end.

Definition os_getcwd : M string := fun w => Ok (cwd w) w.

(** [os.makedirs(path, exist_ok=True)]. *)
Definition os_makedirs (path : string) : M unit :=
  n <- blocking ;;
  if makedirs_fails env n then raise OSError
  else fun w =>
    let p := os_path_abspath (cwd w) path in
    Ok tt (log (Makedirs p) (set_dirs ({[ p ]} ∪ dirs w) w)).

(** [requests.get(url)]. *)
Definition requests_get (url : string) : M Response :=
  n <- blocking ;;
  emit (Http GET url) ;;
  (fun w => Ok tt (set_clock (clock w + latency env n) w)) ;;
  match net env n url with
  | Unreachable => raise ConnectionError
  | TimedOut => raise Timeout
  | Responded r => ret r
  end.

(** [response.raise_for_status()]: an error for 4xx and 5xx only. *)
Definition raise_for_status (r : Response) : M unit :=
  if ((400 <=? status_code r) && (status_code r <? 600))%Z
  then raise (HTTPError (status_code r))
  else ret tt.

(** [response.json()]. *)
Definition response_json (r : Response) : M Json :=
  match json_loads (text r) with
  | Some j => ret j
  | None => raise JSONDecodeError
  end.

(** [open(path, 'w')]: creates the file or truncates it. *)
Definition open_w (path : string) : M string :=
  n <- blocking ;;
  if open_fails env n then raise OSError
  else fun w =>
    let p := os_path_abspath (cwd w) path in
    Ok p (log (OpenW p) (set_files (<[ p := "" ]> (files w)) w)).

(** Writing [content] to the file opened at [p] and closing it. *)
Definition write_and_close (p : string) (content : string) : M unit :=
  n <- blocking ;;
  match write_fails env n with
  | Some k =>
      let written := substring 0 k content in
      (fun w => Ok tt (log (WritePartial p written) (set_files (<[ p := written ]> (files w)) w))) ;;
      raise OSError
  | None =>
      fun w => Ok tt (log (WriteAll p content) (set_files (<[ p := content ]> (files w)) w))
  end.

(** [input(prompt)]. *)
Definition input (question : string) : M string :=
  _ <- blocking ;;
  emit (Prompt question) ;;
  fun w =>
    match stdin w with
    | [] => Raised EOFError w
    | line :: rest => Ok line (set_stdin rest w)
    end.

End Primitives.

(** ** binance_data_fetcher/fetch_data.py *)

Module FetchData.

(** The attributes of a [BinanceDataFetcher]. *)
Record BinanceDataFetcher : Type := {
  base_url : string;
  data_folder : string;
  runtime_hours : PyFloat;
  save_interval_minutes : PyFloat
}.

Section Code.
Context {codec : JsonCodec} (env : Env).

(** [BinanceDataFetcher.__init__]. *)
Definition init (runtime_hours save_interval_minutes : PyFloat) : M BinanceDataFetcher :=
  current_dir <- os_getcwd ;;
  let data_folder :=
    if endswith current_dir "binance_data_fetcher" then "../binance_data"
    else "binance_data" in
  os_makedirs env data_folder ;;
  abspath <- (fun w => Ok (os_path_abspath (cwd w) data_folder) w) ;;
  print (MsgDataFolder abspath) ;;
  ret {| base_url := "https://api.binance.com";
         data_folder := data_folder;
         runtime_hours := runtime_hours;
         save_interval_minutes := save_interval_minutes |}.

(** The body of the [try] block of [fetch_and_save]. *)
Definition fetch_and_save_body (self : BinanceDataFetcher)
    (endpoint filename_prefix : string) : M (option Json) :=
  print (MsgFetching endpoint) ;;
  response <- requests_get env (base_url self +:+ endpoint) ;;
  raise_for_status response ;;
  now <- datetime_now env ;;
  let timestamp := strftime now in
  let filename := filename_prefix +:+ "_" +:+ timestamp +:+ ".json" in
  let filepath := os_path_join (data_folder self) filename in
  f <- open_w env filepath ;;
  payload <- response_json response ;;
  write_and_close env f (json_dumps payload) ;;
  print (MsgSaved filepath) ;;
  payload' <- response_json response ;;
  ret (Some payload').

(** The two [except] clauses of [fetch_and_save], in order. *)
Definition fetch_and_save_handler (endpoint : string) (e : Exn)
  : option (M (option Json)) :=
  if is_RequestException (json_error_is_request_exception env) e then
    Some (print (MsgFetchError endpoint e) ;; ret None)
  else if is_Exception e then
    Some (print (MsgSaveError e) ;; ret None)
  else None.

(** [BinanceDataFetcher.fetch_and_save]. *)
Definition fetch_and_save (self : BinanceDataFetcher)
    (endpoint filename_prefix : string) : M (option Json) :=
  try_except (fetch_and_save_body self endpoint filename_prefix)
             (fetch_and_save_handler endpoint).

Definition pause : PyFloat := Fin (1 # 10).

(** [BinanceDataFetcher.fetch_all_data]. *)
Definition fetch_all_data (self : BinanceDataFetcher) : M unit :=
  fetch_and_save self "/api/v3/exchangeInfo" "exchange_info" ;;
  time_sleep env pause ;;
  fetch_and_save self "/api/v3/ticker/24hr" "ticker_24hr_all" ;;
  time_sleep env pause ;;
  fetch_and_save self "/api/v3/ticker/price" "ticker_price_all" ;;
  time_sleep env pause ;;
  fetch_and_save self "/api/v3/depth?symbol=BTCUSDT&limit=100" "orderbook_BTCUSDT" ;;
  time_sleep env pause ;;
  fetch_and_save self "/api/v3/trades?symbol=BTCUSDT&limit=100" "trades_BTCUSDT" ;;
  time_sleep env pause ;;
  fetch_and_save self "/api/v3/klines?symbol=BTCUSDT&interval=1h&limit=24" "klines_BTCUSDT_1h" ;;
  ret tt.

(** The end of an iteration of the [while] loop of
    [run_continuous_fetch] (from "Calculate remaining time" on): the
    result is [false] at the [break] and [true] when the loop goes
    back to its condition. *)
Definition wait_for_next (end_time interval_seconds : PyFloat) : M bool :=
  now <- time_time ;;
  let remaining_seconds := Float.sub end_time now in
  if Float.leb remaining_seconds (Fin 0) then ret false
  else
    let sleep_time := Float.min interval_seconds remaining_seconds in
    (if Float.ltb (Fin 0) sleep_time then
       now' <- time_time ;;
       next_fetch_time <- datetime_fromtimestamp env (Float.add now' sleep_time) ;;
       print (MsgSleeping sleep_time next_fetch_time) ;;
       time_sleep env sleep_time
     else ret tt) ;;
    ret true.

(** The [while] loop of [run_continuous_fetch]; [fuel] bounds the
    number of tests of the loop condition.  The result is the final
    [fetch_count]. *)
Fixpoint fetch_loop (fuel : nat) (self : BinanceDataFetcher)
    (end_time interval_seconds : PyFloat) (fetch_count : nat) : M nat :=
  match fuel with
  | O => fun _ => OutOfFuel
  | S fuel' =>
      now <- time_time ;;
      if Float.ltb now end_time then
        let fetch_count := S fetch_count in
        current_time <- datetime_now env ;;
        print (MsgFetchNo fetch_count current_time) ;;
        fetch_all_data self ;;
        again <- wait_for_next end_time interval_seconds ;;
        if again then fetch_loop fuel' self end_time interval_seconds fetch_count
        else ret fetch_count
      else ret fetch_count
  end.

(** [BinanceDataFetcher.run_continuous_fetch]. *)
Definition run_continuous_fetch (fuel : nat) (self : BinanceDataFetcher) : M unit :=
  let runtime_seconds := Float.mul (runtime_hours self) (Fin 3600) in
  let interval_seconds := Float.mul (save_interval_minutes self) (Fin 60) in
  start_time <- time_time ;;
  let end_time := Float.add start_time runtime_seconds in
  print (MsgStarting (runtime_hours self) (save_interval_minutes self)) ;;
  will_stop_at <- datetime_fromtimestamp env end_time ;;
  print (MsgWillStopAt will_stop_at) ;;
  fetch_count <- fetch_loop fuel self end_time interval_seconds 0 ;;
  print (MsgCompleted fetch_count) ;;
  ret tt.

(** The module function [main]: a single batch when a parameter is
    missing, the scheduler otherwise. *)
Definition main (fuel : nat) (runtime_hours save_interval_minutes : option PyFloat) : M unit :=
  match runtime_hours, save_interval_minutes with
  | Some h, Some m =>
      fetcher <- init h m ;;
      run_continuous_fetch fuel fetcher
  | _, _ =>
      fetcher <- init (Fin 1) (Fin 60) ;;
      print MsgSingleStart ;;
      fetch_all_data fetcher ;;
      abspath <- (fun w => Ok (os_path_abspath (cwd w) (data_folder fetcher)) w) ;;
      print (MsgSingleDone abspath) ;;
      ret tt
  end.

(** [start_fetcher]. *)
Definition start_fetcher (fuel : nat) (runtime_hours save_interval_minutes : PyFloat) : M unit :=
  main fuel (Some runtime_hours) (Some save_interval_minutes).

End Code.
End FetchData.

(** ** start_binance_data_fetcher.py *)

Module Starter.

(** *** Strings as the builtins see them *)

Definition is_space (c : ascii) : bool :=
  let n := nat_of_ascii c in
  ((9 <=? n)%nat && (n <=? 13)%nat) || ((28 <=? n)%nat && (n <=? 32)%nat).

Fixpoint lstrip (s : list ascii) : list ascii :=
  match s with
  | c :: s' => if is_space c then lstrip s' else s
  | [] => []
  end.

Definition strip_chars (s : list ascii) : list ascii :=
  rev (lstrip (rev (lstrip s))).

Definition lower_char (c : ascii) : ascii :=
  let n := nat_of_ascii c in
  if (65 <=? n)%nat && (n <=? 90)%nat then ascii_of_nat (n + 32) else c.

(** [s.lower().strip()]. *)
Definition lower_strip (s : string) : string :=
  string_of_list_ascii (strip_chars (map lower_char (list_ascii_of_string s))).

(** *** [float(s)] *)

Definition digit_value (c : ascii) : Z := Z.of_nat (nat_of_ascii c - 48).

(** The rest of a [digitpart]: digits, each optionally preceded by one
    underscore.  Returns the value read so far, the number of digits and
    the unread input. *)
Fixpoint digitpart_rest (s : list ascii) (value : Z) (count : nat)
  : Z * nat * list ascii :=
  match s with
  | c :: s' =>
      if is_digit c then digitpart_rest s' (10 * value + digit_value c)%Z (S count)
      else if Ascii.eqb c "_" then
        match s' with
        | c' :: s'' =>
            if is_digit c'
            then digitpart_rest s'' (10 * value + digit_value c')%Z (S count)
            else (value, count, s)
        | [] => (value, count, s)
        end
      else (value, count, s)
  | [] => (value, count, [])
  end.

(** [digitpart ::= digit (["_"] digit)*], continuing the number [value]. *)
Definition digitpart (s : list ascii) (value : Z) : option (Z * nat * list ascii) :=
  match s with
  | c :: s' =>
      if is_digit c then Some (digitpart_rest s' (10 * value + digit_value c)%Z 1%nat)
      else None
  | [] => None
  end.

Definition read_sign (s : list ascii) : bool * list ascii :=
  match s with
  | "-"%char :: s' => (true, s')
  | "+"%char :: s' => (false, s')
  | _ => (false, s)
  end.

(** [exponent ::= ("e" | "E") [sign] digitpart], or nothing; the whole
    input must be consumed. *)
Definition read_exponent (s : list ascii) : option Z :=
  match s with
  | [] => Some 0%Z
  | c :: s' =>
      if Ascii.eqb c "e" || Ascii.eqb c "E" then
        let '(negative, s'') := read_sign s' in
        match digitpart s'' 0%Z with
        | Some (e, _, []) => Some (if negative then (- e)%Z else e)
        | _ => None
        end
      else None
  end.

(** [floatnumber ::= ([digitpart] "." digitpart | digitpart ["."]) [exponent]],
    read exactly. *)
Definition read_floatnumber (s : list ascii) : option Q :=
  let '(mantissa, has_int, s1) :=
    match digitpart s 0%Z with
    | Some (v, _, r) => (v, true, r)
    | None => (0%Z, false, s)
    end in
  let '(mantissa', frac_digits, has_frac, s2) :=
    match s1 with
    | "."%char :: r =>
        match digitpart r mantissa with
        | Some (v, k, r') => (v, k, true, r')
        | None => (mantissa, O, false, r)
        end
    | _ => (mantissa, O, false, s1)
    end in
  if has_int || has_frac then
    match read_exponent s2 with
    | Some e => Some (inject_Z mantissa' * Qpower (inject_Z 10) (e - Z.of_nat frac_digits))%Q
    | None => None
    end
  else None.

(** Where a double overflows to infinity and underflows to zero. *)
Definition overflow_threshold : Q := inject_Z (2 ^ 1024 - 2 ^ 970).
Definition underflow_threshold : Q := Qpower (inject_Z 2) (-1075).

Definition to_double_range (q : Q) : PyFloat :=
  if Qlt_le_dec (Qabs q) overflow_threshold then
    if Qlt_le_dec underflow_threshold (Qabs q) then Fin (Qred q) else Fin 0
  else if Qlt_le_dec q 0 then NInf else PInf.

Definition lower_string (s : list ascii) : string :=
  string_of_list_ascii (map lower_char s).

(** [float(s)] for a string; [None] stands for [ValueError]. *)
Definition float_of_string (s : string) : option PyFloat :=
  let '(negative, body) := read_sign (strip_chars (list_ascii_of_string s)) in
  let name := lower_string body in
  if String.eqb name "inf" || String.eqb name "infinity" then
    Some (if negative then NInf else PInf)
  else if String.eqb name "nan" then Some NaN
  else
    match read_floatnumber body with
    | Some q => Some (to_double_range (if negative then - q else q)%Q)
    | None => None
    end.

Section Code.
Context {codec : JsonCodec} (env : Env).

(** One of the two [while True] loops of [get_user_input]: ask until
    the answer is a number that is not [<= 0].  An iteration that
    continues has read one line, so as many iterations as there are
    lines, plus one, always suffice. *)
Fixpoint ask_number (fuel : nat) (question : string) : M PyFloat :=
  match fuel with
  | O => fun _ => OutOfFuel
  | S fuel' =>
      answer <-
        try_except
          (line <- input env question ;;
           match float_of_string line with
           | None => raise ValueError
           | Some x =>
               if Float.leb x (Fin 0) then print MsgNotPositive ;; ret None
               else ret (Some x)
           end)
          (fun e =>
             match e with
             | ValueError => Some (print MsgNotNumber ;; ret None)
             | _ => None
             end) ;;
      match answer with
      | Some x => ret x
      | None => ask_number fuel' question
      end
  end.

Definition enough_for_console : M nat := fun w => Ok (S (length (stdin w))) w.

(** [get_user_input]. *)
Definition get_user_input : M (PyFloat * PyFloat) :=
  print MsgConfigBanner ;;
  fuel <- enough_for_console ;;
  runtime_hours <- ask_number fuel "1. How many hours should the program run continuously? " ;;
  fuel' <- enough_for_console ;;
  save_interval_minutes <- ask_number fuel' "2. What is the save interval in minutes? " ;;
  ret (runtime_hours, save_interval_minutes).

(** [int(x)] of a float. *)
Definition int_of_float (x : PyFloat) : M Z :=
  match x with
  | Fin q => ret (Float.trunc q)
  | NaN => raise ValueError
  | PInf | NInf => raise OverflowError
  end.

(** The confirmation loop of [display_summary]. *)
Fixpoint ask_confirm (fuel : nat) : M bool :=
  match fuel with
  | O => fun _ => OutOfFuel
  | S fuel' =>
      line <- input env "Proceed with this configuration? (y/n): " ;;
      let confirm := lower_strip line in
      if String.eqb confirm "y" || String.eqb confirm "yes" then ret true
      else if String.eqb confirm "n" || String.eqb confirm "no" then ret false
      else print MsgYesOrNo ;; ask_confirm fuel'
  end.

(** [display_summary]. *)
Definition display_summary (runtime_hours save_interval_minutes : PyFloat) : M bool :=
  print (MsgSummaryHeader runtime_hours save_interval_minutes) ;;
  let total_minutes := Float.mul runtime_hours (Fin 60) in
  ratio <- match Float.div total_minutes save_interval_minutes with
           | Some r => ret r
           | None => raise ZeroDivisionError
           end ;;
  n <- int_of_float ratio ;;
  let estimated_fetches := (n + 1)%Z in
  let files_per_fetch := 6%Z in
  let estimated_total_files := (estimated_fetches * files_per_fetch)%Z in
  print (MsgEstimates estimated_fetches estimated_total_files) ;;
  fuel <- enough_for_console ;;
  ask_confirm fuel.

(** The configuration loop of [main]. *)
Fixpoint configure (fuel : nat) : M (PyFloat * PyFloat) :=
  match fuel with
  | O => fun _ => OutOfFuel
  | S fuel' =>
      config <- get_user_input ;;
      confirmed <- display_summary (fst config) (snd config) ;;
      if confirmed then ret config
      else print MsgReconfigure ;; configure fuel'
  end.

(** The [try] block of [main]. *)
Definition main_body (fuel : nat) : M unit :=
  print MsgWelcome ;;
  console_fuel <- enough_for_console ;;
  config <- configure console_fuel ;;
  now <- datetime_now env ;;
  print (MsgStartingFetcher (strftime now)) ;;
  FetchData.start_fetcher env fuel (fst config) (snd config) ;;
  print MsgSuccess.

(** [main]; the result is the exit status of the process: 0 when the
    function returns, the argument of [sys.exit] otherwise. *)
Definition main (fuel : nat) : M Z :=
  try_except
    (main_body fuel ;; ret 0%Z)
    (fun e =>
       match e with
       | KeyboardInterrupt => Some (print MsgInterrupted ;; ret 0%Z)
       | _ => if is_Exception e then Some (print (MsgError e) ;; ret 1%Z) else None
       end).

(** The script run as a program: the import guard, then [main]. *)
Definition script (fuel : nat) : M Z :=
  if import_fails env then print MsgImportError ;; ret 1%Z
  else main fuel.

End Code.
End Starter.

(** ** Observations on a trace *)

Definition request_of (e : Q * Event) : option (Method * string) :=
  match snd e with
  | Http m url => Some (m, url)
  | _ => None
  end.

Definition batch_start_of (e : Q * Event) : option Q :=
  match snd e with
  | Print (MsgFetchNo _ _) => Some (fst e)
  | _ => None
  end.

Definition sleep_of (e : Q * Event) : option (Q * Q) :=
  match snd e with
  | Sleep d => Some (fst e, d)
  | _ => None
  end.

Definition written_of (e : Q * Event) : option string :=
  match snd e with
  | OpenW p => Some p
  | _ => None
  end.

Fixpoint collect {A B : Type} (f : A -> option B) (l : list A) : list B :=
  match l with
  | [] => []
  | x :: l' =>
      match f x with
      | Some y => y :: collect f l'
      | None => collect f l'
      end
  end.

(** The HTTP requests issued, in order. *)
Definition requests (t : list (Q * Event)) : list (Method * string) := collect request_of t.

(** The times at which a batch was started by the scheduler. *)
Definition batch_starts (t : list (Q * Event)) : list Q := collect batch_start_of t.

(** The calls of [time.sleep]: when, and for how long. *)
Definition sleeps (t : list (Q * Event)) : list (Q * Q) := collect sleep_of t.

Definition print_of (e : Q * Event) : option Msg :=
  match snd e with
  | Print m => Some m
  | _ => None
  end.

(** The paths opened for writing, in order. *)
Definition opened (t : list (Q * Event)) : list string := collect written_of t.

(** The console messages, in order. *)
Definition prints (t : list (Q * Event)) : list Msg := collect print_of t.

(** The six requests of a batch. *)
Definition batch_requests : list (Method * string) :=
  [ (GET, "https://api.binance.com/api/v3/exchangeInfo");
    (GET, "https://api.binance.com/api/v3/ticker/24hr");
    (GET, "https://api.binance.com/api/v3/ticker/price");
    (GET, "https://api.binance.com/api/v3/depth?symbol=BTCUSDT&limit=100");
    (GET, "https://api.binance.com/api/v3/trades?symbol=BTCUSDT&limit=100");
    (GET, "https://api.binance.com/api/v3/klines?symbol=BTCUSDT&interval=1h&limit=24") ].

(** ** A concrete environment for the examples *)

(** JSON documents that are a single scalar: [null], [true], [false] or
    an integer in canonical decimal notation. *)
Inductive Scalar : Type :=
| SNull
| SBool (b : bool)
| SInt (z : Z).

Definition scalar_dumps (j : Scalar) : string :=
  match j with
  | SNull => "null"
  | SBool true => "true"
  | SBool false => "false"
  | SInt z => NilZero.string_of_int (Z.to_int z)
  end.

Definition scalar_loads (s : string) : option Scalar :=
  match NilZero.int_of_string s with
  | Some d =>
      let z := Z.of_int d in
      if String.eqb (NilZero.string_of_int (Z.to_int z)) s then Some (SInt z) else None
  | None =>
      if String.eqb s "null" then Some SNull
      else if String.eqb s "true" then Some (SBool true)
      else if String.eqb s "false" then Some (SBool false)
      else None
  end.

(** The API answers 200 to every request; the body is the number of the
    call, so that two answers never coincide. *)
Definition answering (n : nat) (url : string) : NetReply :=
  Responded {| status_code := 200; text := scalar_dumps (SInt (Z.of_nat n)) |}.

(** Nothing fails, requests take no time, local time is UTC. *)
Definition calm : Env :=
  {| interrupt := fun _ => false;
     net := answering;
     latency := fun _ => 0%Q;
     open_fails := fun _ => false;
     write_fails := fun _ => None;
     makedirs_fails := fun _ => false;
     localtime := utc_datetime;
     json_error_is_request_exception := true;
     import_fails := false |}.

Definition with_net (f : nat -> string -> NetReply) (env : Env) : Env :=
  {| interrupt := interrupt env; net := f; latency := latency env;
     open_fails := open_fails env; write_fails := write_fails env;
     makedirs_fails := makedirs_fails env; localtime := localtime env;
     json_error_is_request_exception := json_error_is_request_exception env;
     import_fails := import_fails env |}.

Definition with_interrupt (f : nat -> bool) (env : Env) : Env :=
  {| interrupt := f; net := net env; latency := latency env;
     open_fails := open_fails env; write_fails := write_fails env;
     makedirs_fails := makedirs_fails env; localtime := localtime env;
     json_error_is_request_exception := json_error_is_request_exception env;
     import_fails := import_fails env |}.

Definition with_import_failure (env : Env) : Env :=
  {| interrupt := interrupt env; net := net env; latency := latency env;
     open_fails := open_fails env; write_fails := write_fails env;
     makedirs_fails := makedirs_fails env; localtime := localtime env;
     json_error_is_request_exception := json_error_is_request_exception env;
     import_fails := true |}.

(** The process starts at 2023-11-14 22:13:20 UTC in a project directory,
    with the given lines waiting on the console. *)
Definition boot (lines : list string) : World :=
  {| clock := inject_Z 1700000000; ticks := 0; stdin := lines;
     cwd := "/home/user/project"; dirs := ∅; files := ∅; trace := [] |}.

Definition fetcher (runtime_hours save_interval_minutes : PyFloat)
  : FetchData.BinanceDataFetcher :=
  {| FetchData.base_url := "https://api.binance.com";
     FetchData.data_folder := "binance_data";
     FetchData.runtime_hours := runtime_hours;
     FetchData.save_interval_minutes := save_interval_minutes |}.


(** ** Notions used by the properties of the console and of the faults *)

(** The world has changed on the console only: no time has passed, no
    file or directory is touched, nothing was requested, no sleep. *)
Record console_only (w w' : World) : Prop := {
  console_clock : clock w' = clock w;
  console_cwd : cwd w' = cwd w;
  console_dirs : dirs w' = dirs w;
  console_files : files w' = files w;
  console_requests : requests (trace w') = requests (trace w);
  console_sleeps : sleeps (trace w') = sleeps (trace w);
  console_batches : batch_starts (trace w') = batch_starts (trace w);
  console_opened : opened (trace w') = opened (trace w)
}.




(** The estimates that [display_summary] prints for a finite runtime of
    [q] hours and an interval of [r] minutes. *)
Definition estimated_fetches (q r : Q) : Z := (Float.trunc (q * 60 / r) + 1)%Z.

(** The fault that the reply to a request is, if it is one. *)
Definition network_fault (reply : NetReply) : option Exn :=
  match reply with
  | Unreachable => Some ConnectionError
  | TimedOut => Some Timeout
  | Responded r =>
      if ((400 <=? status_code r) && (status_code r <? 600))%Z
      then Some (HTTPError (status_code r))
      else None
  end.

(** The path of the snapshot that a call of [fetch_and_save] names at a
    given time. *)
Definition snapshot_path (env : Env) (self : FetchData.BinanceDataFetcher)
    (filename_prefix : string) (cwd : string) (now : Q) : string :=
  os_path_abspath cwd
    (os_path_join (FetchData.data_folder self)
       (filename_prefix +:+ "_" +:+ strftime (localtime env now) +:+ ".json")).

(** Every request is answered with a page that is not JSON. *)
Definition garbled (n : nat) (url : string) : NetReply :=
  Responded {| status_code := 200; text := "<html>" |}.

(** Every request is answered with the document 12345. *)
Definition five_digits (n : nat) (url : string) : NetReply :=
  Responded {| status_code := 200; text := "12345" |}.

(** Every write fails after [k] characters. *)
Definition disk_full_after (k : nat) (env : Env) : Env :=
  {| interrupt := interrupt env; net := net env; latency := latency env;
     open_fails := open_fails env; write_fails := fun _ => Some k;
     makedirs_fails := makedirs_fails env; localtime := localtime env;
     json_error_is_request_exception := json_error_is_request_exception env;
     import_fails := import_fails env |}.

(** * Properties *)

(** ** The scalar codec *)

Lemma scalar_loads_dumps (j : Scalar) : scalar_loads (scalar_dumps j) = Some j.
Proof.
  destruct j as [ | [ | ] | z ]; try reflexivity.
  unfold scalar_loads, scalar_dumps.
  assert (Hd : NilZero.int_of_string (NilZero.string_of_int (Z.to_int z)) = Some (Z.to_int z)).
  { apply NilZero.isi; destruct z; simpl; try discriminate;
      intros H; injection H as H; exact (DecimalPos.Unsigned.to_uint_nonnil _ H). }
  rewrite Hd, DecimalZ.of_to, String.eqb_refl. reflexivity.
Qed.

Definition scalar_codec : JsonCodec :=
  {| Json := Scalar;
     json_loads := scalar_loads;
     json_dumps := scalar_dumps;
     json_loads_dumps := scalar_loads_dumps |}.

(** ** Traces and the monad *)

Lemma collect_app {A B : Type} (f : A -> option B) (l1 l2 : list A) :
  collect f (l1 ++ l2) = collect f l1 ++ collect f l2.
Proof.
  induction l1 as [ | x l1 IH ]; simpl; [ reflexivity | ].
  destruct (f x); simpl; congruence.
Qed.

Lemma bind_ok {A B : Type} (c : M A) (k : A -> M B) (w w' : World) (a : A) :
  c w = Ok a w' -> bind c k w = k a w'.
Proof. intros E. unfold bind. rewrite E. reflexivity. Qed.


Lemma ltb_Fin_true (a b : Q) : (a < b)%Q -> Float.ltb (Fin a) (Fin b) = true.
Proof. intros H. simpl. destruct (Qlt_le_dec a b); [ reflexivity | lra ]. Qed.

Lemma ltb_Fin_false (a b : Q) : (b <= a)%Q -> Float.ltb (Fin a) (Fin b) = false.
Proof. intros H. simpl. destruct (Qlt_le_dec a b); [ lra | reflexivity ]. Qed.


Lemma leb_Fin_false (a b : Q) : (b < a)%Q -> Float.leb (Fin a) (Fin b) = false.
Proof. intros H. simpl. destruct (Qlt_le_dec b a); [ reflexivity | lra ]. Qed.

(** Splits on the innermost scrutinee of a [match] in the goal. *)
(** Finds a given element in a given list. *)
Ltac find_in_list := repeat (first [ left; reflexivity | right ]).

Ltac split_match :=
  match goal with
  | |- context [ match ?x with _ => _ end ] =>
      lazymatch x with
      | context [ match _ with _ => _ end ] => fail
      | _ => destruct x eqn:?
      end
  end.

Ltac trace_facts :=
  unfold requests, batch_starts, sleeps, opened, prints; simpl;
  rewrite ?collect_app; simpl;
  rewrite ?app_nil_r, <- ?app_assoc; simpl.

(** ** What a call of [fetch_and_save] and a pause leave behind *)

Section Outcomes.
Context {codec : JsonCodec} (env : Env).

(** The world after a call of [fetch_and_save] for [url] that returned. *)
Record fetched (url : string) (w w' : World) : Prop := {
  fetched_clock : clock w' = (clock w + latency env (ticks w))%Q;
  fetched_ticks : (ticks w < ticks w')%nat;
  fetched_stdin : stdin w' = stdin w;
  fetched_cwd : cwd w' = cwd w;
  fetched_dirs : dirs w' = dirs w;
  fetched_requests : requests (trace w') = requests (trace w) ++ [(GET, url)];
  fetched_batches : batch_starts (trace w') = batch_starts (trace w);
  fetched_sleeps : sleeps (trace w') = sleeps (trace w)
}.

(** The world after [time.sleep(d)] returned. *)
Record slept (d : Q) (w w' : World) : Prop := {
  slept_clock : clock w' = (clock w + d)%Q;
  slept_ticks : ticks w' = S (ticks w);
  slept_stdin : stdin w' = stdin w;
  slept_cwd : cwd w' = cwd w;
  slept_dirs : dirs w' = dirs w;
  slept_files : files w' = files w;
  slept_requests : requests (trace w') = requests (trace w);
  slept_batches : batch_starts (trace w') = batch_starts (trace w);
  slept_sleeps : sleeps (trace w') = sleeps (trace w) ++ [(clock w, d)]
}.

(** An exception leaves a call only as the Ctrl-C the oracle sent. *)
Definition interrupted (e : Exn) : Prop :=
  e = KeyboardInterrupt /\ exists n, interrupt env n = true.

Lemma fetch_and_save_outcome (self : FetchData.BinanceDataFetcher)
    (endpoint filename_prefix : string) (w : World) :
  match FetchData.fetch_and_save env self endpoint filename_prefix w with
  | Ok _ w' => fetched (FetchData.base_url self +:+ endpoint) w w'
  | Raised e _ => interrupted e
  | OutOfFuel => False
  end.
Proof.
  cbv beta iota zeta delta
    [FetchData.fetch_and_save FetchData.fetch_and_save_body
     FetchData.fetch_and_save_handler try_except bind ret raise print emit
     requests_get raise_for_status datetime_now open_w response_json
     write_and_close blocking is_RequestException is_Exception].
  repeat split_match;
    try discriminate;
    repeat match goal with
           | H : Ok _ _ = Ok _ _ |- _ => inversion H; subst; clear H
           | H : Raised _ _ = Raised _ _ |- _ => inversion H; subst; clear H
           | H : Some _ = Some _ |- _ => inversion H; subst; clear H
           end;
    try (split; [ reflexivity | eexists; eassumption ]);
    try (constructor; trace_facts; solve [ reflexivity | lia ]).
Qed.

Lemma time_sleep_outcome (d : Q) (w : World) :
  (0 <= d)%Q ->
  match time_sleep env (Fin d) w with
  | Ok _ w' => slept d w w'
  | Raised e _ => interrupted e
  | OutOfFuel => False
  end.
Proof.
  intros Hd.
  cbv beta iota zeta delta [time_sleep bind emit blocking raise].
  destruct (Qlt_le_dec d 0) as [ Hneg | _ ]; [ lra | ].
  destruct (interrupt env (ticks w)) eqn:Hi.
  - split; [ reflexivity | eexists; eassumption ].
  - constructor; trace_facts; reflexivity.
Qed.

End Outcomes.

(** ** A batch *)

(** The clock at the end of a batch that starts at [t] and whose requests
    take the times [ls], with a pause of a tenth of a second between two
    requests. *)
Fixpoint batch_clock (t : Q) (ls : list Q) : Q :=
  match ls with
  | [] => t
  | [l] => (t + l)%Q
  | l :: ls' => batch_clock (t + l + (1 # 10))%Q ls'
  end.

(** The pauses of that batch: when each starts, and its length. *)
Fixpoint batch_pauses (t : Q) (ls : list Q) : list (Q * Q) :=
  match ls with
  | [] => []
  | [l] => []
  | l :: ls' => ((t + l)%Q, 1 # 10) :: batch_pauses (t + l + (1 # 10))%Q ls'
  end.

Definition endpoints : list string :=
  [ "/api/v3/exchangeInfo";
    "/api/v3/ticker/24hr";
    "/api/v3/ticker/price";
    "/api/v3/depth?symbol=BTCUSDT&limit=100";
    "/api/v3/trades?symbol=BTCUSDT&limit=100";
    "/api/v3/klines?symbol=BTCUSDT&interval=1h&limit=24" ].

Section Batch.
Context {codec : JsonCodec} (env : Env).

(** The world after a call of [fetch_all_data] that returned. *)
Record batch_done (self : FetchData.BinanceDataFetcher) (w w' : World) : Prop := {
  batch_requests_done :
    requests (trace w') =
    requests (trace w) ++ map (fun ep => (GET, FetchData.base_url self +:+ ep)) endpoints;
  batch_batches : batch_starts (trace w') = batch_starts (trace w);
  batch_stdin : stdin w' = stdin w;
  batch_cwd : cwd w' = cwd w;
  batch_dirs : dirs w' = dirs w;
  batch_ticks : (ticks w < ticks w')%nat;
  batch_timing :
    exists ls : list Q,
      length ls = 6%nat /\
      Forall (fun l => exists n, l = latency env n) ls /\
      clock w' = batch_clock (clock w) ls /\
      sleeps (trace w') = sleeps (trace w) ++ batch_pauses (clock w) ls
}.

Ltac fetch_step :=
  unfold bind at 1;
  match goal with
  | |- context [ FetchData.fetch_and_save env ?self ?ep ?pre ?w ] =>
      let F := fresh "F" in
      pose proof (fetch_and_save_outcome env self ep pre w) as F;
      destruct (FetchData.fetch_and_save env self ep pre w) as [ ? ? | ? ? | ];
      [ cbv beta | exact F | contradiction ]
  end.

Ltac pause_step :=
  unfold bind at 1;
  match goal with
  | |- context [ time_sleep env FetchData.pause ?w ] =>
      let P := fresh "P" in
      assert (P := time_sleep_outcome env (1 # 10) w ltac:(lra));
      change (Fin (1 # 10)) with FetchData.pause in P;
      destruct (time_sleep env FetchData.pause w) as [ ? ? | ? ? | ];
      [ cbv beta | exact P | contradiction ]
  end.

Ltac chain f :=
  repeat match goal with
         | H : f (trace ?x) = _ |- context [ f (trace ?x) ] => rewrite H; clear H
         end.

Lemma fetch_all_data_outcome (self : FetchData.BinanceDataFetcher) (w : World) :
  match FetchData.fetch_all_data env self w with
  | Ok _ w' => batch_done self w w'
  | Raised e _ => interrupted env e
  | OutOfFuel => False
  end.
Proof.
  unfold FetchData.fetch_all_data.
  fetch_step. pause_step. fetch_step. pause_step. fetch_step. pause_step.
  fetch_step. pause_step. fetch_step. pause_step. fetch_step.
  cbv beta delta [ret].
  repeat match goal with
         | H : fetched _ _ _ _ |- _ => destruct H
         | H : slept _ _ _ |- _ => destruct H
         end.
  constructor.
  - chain requests. simpl. rewrite <- !app_assoc. reflexivity.
  - chain batch_starts. reflexivity.
  - congruence.
  - congruence.
  - congruence.
  - lia.
  - match goal with
    | H1 : clock ?w1 = (clock w + _)%Q,
      H2 : clock ?w2 = (clock ?w1' + (1 # 10))%Q,
      H3 : clock ?w3 = (clock ?w2 + ?l2)%Q,
      H4 : clock ?w4 = (clock ?w3 + (1 # 10))%Q,
      H5 : clock ?w5 = (clock ?w4 + ?l3)%Q,
      H6 : clock ?w6 = (clock ?w5 + (1 # 10))%Q,
      H7 : clock ?w7 = (clock ?w6 + ?l4)%Q,
      H8 : clock ?w8 = (clock ?w7 + (1 # 10))%Q,
      H9 : clock ?w9 = (clock ?w8 + ?l5)%Q,
      H10 : clock ?w10 = (clock ?w9 + (1 # 10))%Q,
      H11 : clock ?w11 = (clock ?w10 + ?l6)%Q |- _ =>
        exists [latency env (ticks w); l2; l3; l4; l5; l6]
    end.
    split; [ reflexivity | ].
    split; [ repeat constructor; eexists; reflexivity | ].
    split.
    + simpl. congruence.
    + chain sleeps. simpl. rewrite <- !app_assoc. simpl. congruence.
Qed.

End Batch.

(** ** The scheduler loop *)

Lemma min_Fin_l (a b : Q) : (a <= b)%Q -> Float.min (Fin a) (Fin b) = Fin a.
Proof. intros H. unfold Float.min. rewrite ltb_Fin_false by exact H. reflexivity. Qed.

Lemma min_Fin_r (a b : Q) : (b < a)%Q -> Float.min (Fin a) (Fin b) = Fin b.
Proof. intros H. unfold Float.min. rewrite ltb_Fin_true by exact H. reflexivity. Qed.


(** The world after the scheduler announced and took a sleep of [d]
    seconds. *)
Definition after_sleep (env : Env) (d : Q) (w : World) : World :=
  set_clock (clock w + d)
    (log (Sleep d)
       (set_ticks (S (ticks w))
          (log (Print (MsgSleeping (Fin d) (localtime env (clock w + d)))) w))).


Section Waiting.
Context {codec : JsonCodec} (env : Env).



Lemma wait_for_next_sleep (end_time : Q) (iv : PyFloat) (d : Q) (w : World) :
  (0 < end_time - clock w)%Q ->
  Float.min iv (Fin (end_time - clock w)) = Fin d ->
  (0 < d)%Q ->
  interrupt env (ticks w) = false ->
  (min_timestamp <= clock w + d)%Q -> (clock w + d < max_timestamp)%Q ->
  FetchData.wait_for_next env (Fin end_time) iv w = Ok true (after_sleep env d w).
Proof.
  intros H Hmin Hd Hi Hlo Hhi. unfold FetchData.wait_for_next.
  unfold bind at 1. unfold time_time at 1. cbn [Float.sub].
  rewrite (leb_Fin_false _ _ H), Hmin, (ltb_Fin_true _ _ Hd).
  cbv beta iota zeta delta
    [bind time_time ret print emit Float.add datetime_fromtimestamp time_sleep
     blocking raise].
  destruct (Qlt_le_dec (clock w + d) min_timestamp) as [ Hc | _ ]; [ lra | ].
  destruct (Qlt_le_dec (clock w + d) max_timestamp) as [ _ | Hc ]; [ | lra ].
  destruct (Qlt_le_dec d 0) as [ Hc | _ ]; [ lra | ].
  simpl. rewrite Hi. reflexivity.
Qed.

Lemma fetch_loop_enter (fuel : nat) (self : FetchData.BinanceDataFetcher)
    (end_time : Q) (iv : PyFloat) (count : nat) (w : World) :
  (clock w < end_time)%Q ->
  FetchData.fetch_loop env (S fuel) self (Fin end_time) iv count w =
  bind (FetchData.fetch_all_data env self)
    (fun _ => bind (FetchData.wait_for_next env (Fin end_time) iv)
       (fun again =>
          if again then FetchData.fetch_loop env fuel self (Fin end_time) iv (S count)
          else ret (S count)))
    (log (Print (MsgFetchNo (S count) (localtime env (clock w)))) w).
Proof.
  intros H. cbn [FetchData.fetch_loop].
  unfold bind at 1. unfold time_time at 1.
  rewrite (ltb_Fin_true _ _ H). reflexivity.
Qed.

Lemma fetch_loop_exit (fuel : nat) (self : FetchData.BinanceDataFetcher)
    (end_time : Q) (iv : PyFloat) (count : nat) (w : World) :
  (end_time <= clock w)%Q ->
  FetchData.fetch_loop env (S fuel) self (Fin end_time) iv count w = Ok count w.
Proof.
  intros H. cbn [FetchData.fetch_loop].
  unfold bind at 1. unfold time_time at 1.
  rewrite (ltb_Fin_false _ _ H). reflexivity.
Qed.

End Waiting.

(** With nobody at the keyboard and requests that take between 0 and [L]
    seconds. *)
Section Unattended.
Context {codec : JsonCodec} (env : Env).
Variable L : Q.
Hypothesis no_interrupt : forall n, interrupt env n = false.
Hypothesis latency_bounds : forall n, (0 <= latency env n <= L)%Q.

Lemma batch_returns (self : FetchData.BinanceDataFetcher) (w : World) :
  exists w', FetchData.fetch_all_data env self w = Ok tt w' /\ batch_done env self w w'.
Proof.
  pose proof (fetch_all_data_outcome env self w) as H.
  destruct (FetchData.fetch_all_data env self w) as [ [] w' | e w' | ].
  - exists w'. split; [ reflexivity | exact H ].
  - destruct H as [ _ [ n Hn ] ]. rewrite no_interrupt in Hn. discriminate.
  - contradiction.
Qed.

Lemma batch_clock_bounds (t : Q) (ls : list Q) :
  length ls = 6%nat ->
  Forall (fun l => exists n, l = latency env n) ls ->
  (t + (1 # 2) <= batch_clock t ls <= t + (1 # 2) + 6 * L)%Q.
Proof.
  intros Hlen Hls.
  do 7 (destruct ls as [ | ? ls ]; try discriminate).
  repeat match goal with
         | H : Forall _ (_ :: _) |- _ => inversion H; subst; clear H
         | H : exists n, _ = latency env n |- _ =>
             let n := fresh "n" in destruct H as [ n -> ];
             pose proof (latency_bounds n)
         end.
  simpl. lra.
Qed.

Lemma batch_pauses_within (t : Q) (ls : list Q) :
  length ls = 6%nat ->
  Forall (fun l => exists n, l = latency env n) ls ->
  Forall (fun p => (t <= fst p)%Q /\ (fst p + snd p <= batch_clock t ls)%Q)
         (batch_pauses t ls).
Proof.
  intros Hlen Hls.
  do 7 (destruct ls as [ | ? ls ]; try discriminate).
  repeat match goal with
         | H : Forall _ (_ :: _) |- _ => inversion H; subst; clear H
         | H : exists n, _ = latency env n |- _ =>
             let n := fresh "n" in destruct H as [ n -> ];
             pose proof (latency_bounds n)
         end.
  simpl. repeat constructor; simpl; lra.
Qed.

(** One turn of the loop when the batch ends before the deadline and the
    interval is positive: the batch starts at once, ends at [b], and the
    scheduler sleeps for the interval, or until the deadline if that
    comes first. *)
Lemma fetch_loop_turn (fuel : nat) (self : FetchData.BinanceDataFetcher)
    (end_time iv : Q) (count : nat) (w : World) :
  (0 < iv)%Q ->
  (min_timestamp <= clock w)%Q -> (end_time < max_timestamp)%Q ->
  (clock w + (1 # 2) + 6 * L < end_time)%Q ->
  exists (w' : World) (b : Q) (new : list (Q * Q)),
    FetchData.fetch_loop env (S fuel) self (Fin end_time) (Fin iv) count w =
    FetchData.fetch_loop env fuel self (Fin end_time) (Fin iv) (S count) w' /\
    (clock w + (1 # 2) <= b <= clock w + (1 # 2) + 6 * L)%Q /\
    ((iv <= end_time - b)%Q -> clock w' = (b + iv)%Q) /\
    ((end_time - b < iv)%Q -> clock w' = (b + (end_time - b))%Q) /\
    batch_starts (trace w') = batch_starts (trace w) ++ [clock w] /\
    requests (trace w') =
      requests (trace w) ++ map (fun ep => (GET, FetchData.base_url self +:+ ep)) endpoints /\
    sleeps (trace w') = sleeps (trace w) ++ new /\
    Forall (fun p => (fst p + snd p <= end_time)%Q) new.
Proof.
  intros Hiv Hlo Hhi Hroom.
  pose proof (latency_bounds 0) as HL.
  rewrite fetch_loop_enter by lra.
  set (w0 := log (Print (MsgFetchNo (S count) (localtime env (clock w)))) w).
  destruct (batch_returns self w0) as (w1 & Hrun & Hdone).
  rewrite (bind_ok _ _ _ _ _ Hrun).
  destruct Hdone as [ Hreq Hbat _ _ _ _ (ls & Hlen & Hls & Hclock & Hsleeps) ].
  pose proof (batch_clock_bounds (clock w0) ls Hlen Hls) as Hb.
  pose proof (batch_pauses_within (clock w0) ls Hlen Hls) as Hp.
  rewrite <- Hclock in Hb, Hp.
  change (clock w0) with (clock w) in Hb, Hp.
  assert (Hnew : forall d, (0 < d)%Q -> (clock w1 + d <= end_time)%Q ->
            Forall (fun p => (fst p + snd p <= end_time)%Q)
                   (batch_pauses (clock w0) ls ++ [(clock w1, d)])).
  { intros d Hd Hend. apply Forall_app. split.
    - eapply Forall_impl; [ exact Hp | ]. intros p [ _ Hq ]. simpl in Hq. lra.
    - repeat constructor. simpl. exact Hend. }
  unfold bind at 1.
  destruct (Qlt_le_dec (end_time - clock w1) iv) as [ Hshort | Hlong ].
  - rewrite (wait_for_next_sleep env end_time (Fin iv) (end_time - clock w1) w1);
      [ | lra | apply min_Fin_r; exact Hshort | lra | apply no_interrupt
        | unfold min_timestamp in *; lra | lra ].
    exists (after_sleep env (end_time - clock w1) w1), (clock w1),
           (batch_pauses (clock w0) ls ++ [(clock w1, (end_time - clock w1)%Q)]).
    split; [ reflexivity | ].
    split; [ exact Hb | ].
    split; [ intros; lra | ].
    split; [ intros; reflexivity | ].
    split; [ trace_facts; fold (batch_starts (trace w1)); rewrite Hbat; subst w0; trace_facts; reflexivity | ].
    split; [ trace_facts; fold (requests (trace w1)); rewrite Hreq; subst w0; trace_facts; reflexivity | ].
    split; [ trace_facts; fold (sleeps (trace w1)); rewrite Hsleeps; subst w0; trace_facts; reflexivity | ].
    apply Hnew; lra.
  - rewrite (wait_for_next_sleep env end_time (Fin iv) iv w1);
      [ | lra | apply min_Fin_l; exact Hlong | lra | apply no_interrupt
        | unfold min_timestamp in *; lra | lra ].
    exists (after_sleep env iv w1), (clock w1),
           (batch_pauses (clock w0) ls ++ [(clock w1, iv)]).
    split; [ reflexivity | ].
    split; [ exact Hb | ].
    split; [ intros; reflexivity | ].
    split; [ intros; lra | ].
    split; [ trace_facts; fold (batch_starts (trace w1)); rewrite Hbat; subst w0; trace_facts; reflexivity | ].
    split; [ trace_facts; fold (requests (trace w1)); rewrite Hreq; subst w0; trace_facts; reflexivity | ].
    split; [ trace_facts; fold (sleeps (trace w1)); rewrite Hsleeps; subst w0; trace_facts; reflexivity | ].
    apply Hnew; lra.
Qed.

End Unattended.

Section Running.
Context {codec : JsonCodec} (env : Env).

(** Up to the loop, [run_continuous_fetch] reads the clock, computes the
    deadline and announces it. *)
Lemma run_continuous_fetch_start (fuel : nat) (self : FetchData.BinanceDataFetcher)
    (h : Q) (w : World) :
  FetchData.runtime_hours self = Fin h ->
  (min_timestamp <= clock w + h * 3600)%Q -> (clock w + h * 3600 < max_timestamp)%Q ->
  FetchData.run_continuous_fetch env fuel self w =
  bind (FetchData.fetch_loop env fuel self (Fin (clock w + h * 3600))
          (Float.mul (FetchData.save_interval_minutes self) (Fin 60)) 0)
       (fun fetch_count => bind (print (MsgCompleted fetch_count)) (fun _ => ret tt))
       (log (Print (MsgWillStopAt (localtime env (clock w + h * 3600))))
          (log (Print (MsgStarting (Fin h) (FetchData.save_interval_minutes self))) w)).
Proof.
  intros Hh Hlo Hhi. unfold FetchData.run_continuous_fetch. rewrite Hh.
  cbn [Float.mul]. unfold bind at 1. unfold time_time at 1. cbn [Float.add].
  unfold bind at 1. unfold print at 1, emit at 1.
  unfold bind at 1. unfold datetime_fromtimestamp.
  cbn [clock log].
  destruct (Qlt_le_dec (clock w + h * 3600) min_timestamp) as [ Hc | _ ]; [ lra | ].
  destruct (Qlt_le_dec (clock w + h * 3600) max_timestamp) as [ _ | Hc ]; [ | lra ].
  reflexivity.
Qed.

End Running.

(** C1, as the code has it: with a duration of 0 the loop condition
    [time.time() < end_time] is false at the first test, so
    [run_continuous_fetch] performs no batch at all, whatever the interval
    (any float, NaN and the infinities included); it issues no request,
    does not sleep, and returns with the clock and the files untouched. *)
Theorem zero_duration_runs_no_batch {codec : JsonCodec} (env : Env) (fuel : nat)
    (self : FetchData.BinanceDataFetcher) (h : Q) (w : World) :
  FetchData.runtime_hours self = Fin h ->
  (h == 0)%Q ->
  (min_timestamp <= clock w)%Q -> (clock w < max_timestamp)%Q ->
  exists w',
    FetchData.run_continuous_fetch env (S fuel) self w = Ok tt w' /\
    batch_starts (trace w') = batch_starts (trace w) /\
    requests (trace w') = requests (trace w) /\
    sleeps (trace w') = sleeps (trace w) /\
    clock w' = clock w /\ files w' = files w /\ ticks w' = ticks w.
Proof.
  intros Hh Hzero Hlo Hhi.
  rewrite (run_continuous_fetch_start env (S fuel) self h w Hh) by lra.
  unfold bind at 1. rewrite fetch_loop_exit by (simpl; lra).
  eexists. split; [ reflexivity | ].
  repeat split; trace_facts; reflexivity.
Qed.

Lemma eq_Qeq (x y : Q) : x = y -> (x == y)%Q.
Proof. intros ->. reflexivity. Qed.

(** C2: a run of 150 minutes with an interval of 60 minutes, unattended,
    each request taking at most a second.  There are exactly three batches
    (18 requests); the first starts at once, the second and the third one
    interval after the end of the batch before, that is at 60 and 120
    minutes plus the few seconds the earlier batches took; the last sleep is
    cut at the deadline, where the run ends, and no sleep goes past it. *)
Theorem three_batches_in_150_minutes {codec : JsonCodec} (env : Env) (fuel : nat)
    (self : FetchData.BinanceDataFetcher) (w : World) :
  FetchData.runtime_hours self = Fin (5 # 2) ->
  FetchData.save_interval_minutes self = Fin 60 ->
  (forall n, interrupt env n = false) ->
  (forall n, (0 <= latency env n <= 1)%Q) ->
  (min_timestamp <= clock w)%Q -> (clock w + 9000 < max_timestamp)%Q ->
  exists (w' : World) (s1 s2 : Q) (new : list (Q * Q)),
    FetchData.run_continuous_fetch env (4 + fuel) self w = Ok tt w' /\
    batch_starts (trace w') = batch_starts (trace w) ++ [clock w; s1; s2] /\
    (clock w + 3600 <= s1 <= clock w + 3600 + (13 # 2))%Q /\
    (clock w + 7200 <= s2 <= clock w + 7200 + 13)%Q /\
    length (requests (trace w')) = (length (requests (trace w)) + 18)%nat /\
    (clock w' == clock w + 9000)%Q /\
    sleeps (trace w') = sleeps (trace w) ++ new /\
    Forall (fun p => (fst p + snd p <= clock w + 9000)%Q) new.
Proof.
  intros Hh Hm Hi Hl Hlo Hhi.
  rewrite (run_continuous_fetch_start env _ self _ w Hh) by (unfold min_timestamp in *; lra).
  rewrite Hm. cbn [Float.mul].
  set (w0 := log _ (log _ w)).
  set (end_time := (clock w + (5 # 2) * 3600)%Q).
  assert (Hend : (end_time == clock w + 9000)%Q) by (unfold end_time; lra).
  assert (Hc0 : (clock w0 == clock w)%Q) by reflexivity.
  destruct (fetch_loop_turn env 1 Hi Hl (3 + fuel) self end_time (60 * 60) 0 w0)
    as (w1 & b1 & new1 & E1 & Hb1 & Hlong1 & _ & Hs1 & Hr1 & Hz1 & Hn1);
    try (unfold min_timestamp in *; lra).
  specialize (Hlong1 ltac:(lra)). apply eq_Qeq in Hlong1.
  destruct (fetch_loop_turn env 1 Hi Hl (2 + fuel) self end_time (60 * 60) 1 w1)
    as (w2 & b2 & new2 & E2 & Hb2 & Hlong2 & _ & Hs2 & Hr2 & Hz2 & Hn2);
    try (unfold min_timestamp in *; lra).
  specialize (Hlong2 ltac:(lra)). apply eq_Qeq in Hlong2.
  destruct (fetch_loop_turn env 1 Hi Hl (1 + fuel) self end_time (60 * 60) 2 w2)
    as (w3 & b3 & new3 & E3 & Hb3 & _ & Hshort3 & Hs3 & Hr3 & Hz3 & Hn3);
    try (unfold min_timestamp in *; lra).
  specialize (Hshort3 ltac:(lra)). apply eq_Qeq in Hshort3.
  unfold bind at 1.
  change (4 + fuel)%nat with (S (3 + fuel)).
  rewrite E1. change (3 + fuel)%nat with (S (2 + fuel)).
  rewrite E2. change (2 + fuel)%nat with (S (1 + fuel)).
  rewrite E3. change (1 + fuel)%nat with (S fuel).
  rewrite fetch_loop_exit by lra.
  exists (log (Print (MsgCompleted 3)) w3), (clock w1), (clock w2), (new1 ++ new2 ++ new3).
  split; [ reflexivity | ].
  split.
  { trace_facts. fold (batch_starts (trace w3)).
    rewrite Hs3, Hs2, Hs1. subst w0. trace_facts. reflexivity. }
  split; [ lra | ].
  split; [ lra | ].
  split.
  { trace_facts. fold (requests (trace w3)).
    rewrite Hr3, Hr2, Hr1. subst w0. trace_facts.
    rewrite !length_app. simpl. lia. }
  split; [ simpl; lra | ].
  split.
  { trace_facts. fold (sleeps (trace w3)).
    rewrite Hz3, Hz2, Hz1. subst w0. trace_facts. reflexivity. }
  rewrite !Forall_app. repeat split;
    (eapply Forall_impl; [ eassumption | ]); intros p Hp; simpl in Hp; lra.
Qed.


(** ** Runs of the scheduler on the sample environment *)

Section SchedulerRuns.
#[local] Existing Instance scalar_codec.

(** A duration of 0 hours with an interval of 60 minutes: the run ends
    without a single batch, where C1 as stated expects one. *)
Lemma zero_duration_one_batch_counterexample :
  exists w',
    FetchData.run_continuous_fetch calm 1 (fetcher (Fin 0) (Fin 60)) (boot []) = Ok tt w' /\
    batch_starts (trace w') = [] /\
    requests (trace w') = [] /\
    length (batch_starts (trace w')) <> 1%nat.
Proof.
  eexists. split; [ vm_compute; reflexivity | ].
  vm_compute. repeat split. discriminate.
Qed.

Lemma zero_duration_runs_no_batch_witness :
  exists w',
    FetchData.run_continuous_fetch calm 1 (fetcher (Fin 0) NaN) (boot []) = Ok tt w' /\
    batch_starts (trace w') = batch_starts (trace (boot [])) /\
    requests (trace w') = requests (trace (boot [])) /\
    sleeps (trace w') = sleeps (trace (boot [])) /\
    clock w' = clock (boot []) /\ files w' = files (boot []) /\ ticks w' = ticks (boot []).
Proof.
  apply (zero_duration_runs_no_batch calm 0 (fetcher (Fin 0) NaN) 0 (boot [])).
  - reflexivity.
  - reflexivity.
  - vm_compute. discriminate.
  - vm_compute. reflexivity.
Defined.

Lemma three_batches_in_150_minutes_witness :
  exists (w' : World) (s1 s2 : Q) (new : list (Q * Q)),
    FetchData.run_continuous_fetch calm 4 (fetcher (Fin (5 # 2)) (Fin 60)) (boot []) = Ok tt w' /\
    batch_starts (trace w') = batch_starts (trace (boot [])) ++ [clock (boot []); s1; s2] /\
    (clock (boot []) + 3600 <= s1 <= clock (boot []) + 3600 + (13 # 2))%Q /\
    (clock (boot []) + 7200 <= s2 <= clock (boot []) + 7200 + 13)%Q /\
    length (requests (trace w')) = (length (requests (trace (boot []))) + 18)%nat /\
    (clock w' == clock (boot []) + 9000)%Q /\
    sleeps (trace w') = sleeps (trace (boot [])) ++ new /\
    Forall (fun p => (fst p + snd p <= clock (boot []) + 9000)%Q) new.
Proof.
  apply (three_batches_in_150_minutes calm 0 (fetcher (Fin (5 # 2)) (Fin 60)) (boot [])).
  - reflexivity.
  - reflexivity.
  - intros n. reflexivity.
  - intros n. simpl. lra.
  - vm_compute. discriminate.
  - vm_compute. reflexivity.
Defined.

(** The run of C2, computed: the batches start at 0 s, 3600.5 s and
    7201 s after the start, and the run ends 9000 s after it. *)
Example run_of_150_minutes :
  match FetchData.run_continuous_fetch calm 4 (fetcher (Fin (5 # 2)) (Fin 60)) (boot []) with
  | Ok _ w' =>
      map (fun t => Qred (t - 1700000000)) (batch_starts (trace w')) = [0; 7201 # 2; 7201]%Q /\
      Qred (clock w' - 1700000000) = 9000%Q /\
      length (requests (trace w')) = 18%nat
  | _ => False
  end.
Proof. vm_compute. repeat split. Qed.



(** The same moment, computed: half an hour is left, the interval is an
    hour, and the scheduler sleeps for the half hour. *)
Example sleep_is_cut_at_the_deadline :
  match FetchData.wait_for_next calm (Fin (1700000000 + 1800)) (Fin 3600) (boot []) with
  | Ok again w' =>
      again = true /\
      map (fun p => (Qred (fst p), Qred (snd p))) (sleeps (trace w')) = [(1700000000, 1800)]%Q
  | _ => False
  end.
Proof. vm_compute. repeat split. Qed.

End SchedulerRuns.

(** ** Faults inside [fetch_and_save] *)

(** What goes wrong, if anything, in the call of [fetch_and_save] that
    starts at oracle index [n]: the exception raised inside the [try]
    block.  The request is blocking call [n], the [open] is call [n + 1]
    and the write is call [n + 2]. *)
Definition fault_of_call {codec : JsonCodec} (env : Env) (url : string) (n : nat)
  : option Exn :=
  match net env n url with
  | Unreachable => Some ConnectionError
  | TimedOut => Some Timeout
  | Responded r =>
      if ((400 <=? status_code r) && (status_code r <? 600))%Z
      then Some (HTTPError (status_code r))
      else if open_fails env (S n) then Some OSError
      else match json_loads (text r) with
           | None => Some JSONDecodeError
           | Some _ =>
               match write_fails env (S (S n)) with
               | Some _ => Some OSError
               | None => None
               end
           end
  end.

(** The line that the [except] clause for [e] prints. *)
Definition error_message (env : Env) (endpoint : string) (e : Exn) : Msg :=
  if is_RequestException (json_error_is_request_exception env) e
  then MsgFetchError endpoint e
  else MsgSaveError e.

Lemma trace_log (e : Event) (w : World) :
  exists t, trace (log e w) = t ++ [(clock (log e w), e)].
Proof. exists (trace w). reflexivity. Qed.

Section Faults.
Context {codec : JsonCodec} (env : Env).
Hypothesis no_interrupt : forall n, interrupt env n = false.

Lemma fault_is_caught (self : FetchData.BinanceDataFetcher)
    (endpoint filename_prefix : string) (w : World) (e : Exn) :
  fault_of_call env (FetchData.base_url self +:+ endpoint) (ticks w) = Some e ->
  exists w',
    FetchData.fetch_and_save env self endpoint filename_prefix w = Ok None w' /\
    exists t, trace w' = t ++ [(clock w', Print (error_message env endpoint e))].
Proof.
  unfold fault_of_call, error_message.
  cbv beta iota zeta delta
    [FetchData.fetch_and_save FetchData.fetch_and_save_body
     FetchData.fetch_and_save_handler try_except bind ret raise print emit
     requests_get raise_for_status datetime_now open_w response_json
     write_and_close blocking].
  repeat split_match; intros Hf;
    try discriminate;
    try (match goal with
         | H : interrupt env _ = true |- _ => rewrite no_interrupt in H; discriminate H
         end);
    cbn [ticks clock log set_ticks set_clock set_files] in *;
    repeat match goal with
           | H : Ok _ _ = Ok _ _ |- _ => inversion H; subst; clear H
           | H : Raised _ _ = Raised _ _ |- _ => inversion H; subst; clear H
           | H : Some _ = Some _ |- _ => inversion H; subst; clear H
           | H1 : net env ?n ?u = _, H2 : net env ?n ?u = _ |- _ =>
               rewrite H1 in H2; injection H2 as H2; subst
           end;
    try congruence;
    try (eexists; split; [ reflexivity | apply trace_log ]).
Qed.


Lemma batch_completes (self : FetchData.BinanceDataFetcher) (w : World) :
  exists w',
    FetchData.fetch_all_data env self w = Ok tt w' /\
    requests (trace w') =
    requests (trace w) ++ map (fun ep => (GET, FetchData.base_url self +:+ ep)) endpoints.
Proof.
  pose proof (fetch_all_data_outcome env self w) as H.
  destruct (FetchData.fetch_all_data env self w) as [ [] w' | e w' | ].
  - exists w'. split; [ reflexivity | apply H ].
  - destruct H as [ _ [ n Hn ] ]. rewrite no_interrupt in Hn. discriminate.
  - contradiction.
Qed.

End Faults.

(** ** The name and the contents of the file *)

Definition two_digits (s : string) : bool :=
  match s with
  | String a (String b EmptyString) => is_digit a && is_digit b
  | _ => false
  end.

Definition four_digits (s : string) : bool :=
  match s with
  | String a (String b (String c (String d EmptyString))) =>
      is_digit a && is_digit b && is_digit c && is_digit d
  | _ => false
  end.

Lemma is_digit_digit_char (n : nat) : is_digit (digit_char n) = true.
Proof.
  unfold is_digit, digit_char.
  pose proof (Nat.mod_upper_bound n 10 ltac:(lia)) as Hm.
  rewrite nat_ascii_embedding by lia.
  apply andb_true_iff. split; apply Nat.leb_le; lia.
Qed.

Lemma decimal_aux_2 (fuel n : nat) (acc : string) :
  (10 <= n)%nat -> (n < 100)%nat -> (2 <= fuel)%nat ->
  decimal_aux fuel n acc = String (digit_char (n / 10)) (String (digit_char n) acc).
Proof.
  intros Hlo Hhi Hfuel.
  destruct fuel as [ | [ | fuel ] ]; try lia.
  cbn [decimal_aux].
  destruct (Nat.ltb_spec n 10); [ lia | ].
  destruct (Nat.ltb_spec (n / 10) 10) as [ _ | Hc ]; [ reflexivity | ].
  exfalso. pose proof (Nat.Div0.div_lt_upper_bound n 10 10). lia.
Qed.

Lemma decimal_aux_1 (fuel n : nat) (acc : string) :
  (n < 10)%nat -> (1 <= fuel)%nat ->
  decimal_aux fuel n acc = String (digit_char n) acc.
Proof.
  intros Hhi Hfuel.
  destruct fuel as [ | fuel ]; try lia.
  cbn [decimal_aux].
  destruct (Nat.ltb_spec n 10); [ reflexivity | lia ].
Qed.

Lemma zero_pad_2 (z : Z) : (0 <= z <= 99)%Z -> two_digits (zero_pad 2 z) = true.
Proof.
  intros H. unfold zero_pad, decimal.
  set (n := Z.to_nat z). assert (Hn : (n < 100)%nat) by lia.
  destruct (Nat.lt_ge_cases n 10) as [ Hs | Hb ].
  - rewrite decimal_aux_1 by lia.
    cbv beta iota zeta delta [String.length Nat.sub zeros append two_digits].
    rewrite is_digit_digit_char. reflexivity.
  - rewrite decimal_aux_2 by lia.
    cbv beta iota zeta delta [String.length Nat.sub zeros append two_digits].
    rewrite !is_digit_digit_char. reflexivity.
Qed.

Lemma decimal_aux_4 (fuel n : nat) (acc : string) :
  (1000 <= n)%nat -> (n < 10 * 1000)%nat -> (4 <= fuel)%nat ->
  decimal_aux fuel n acc =
  String (digit_char (n / 10 / 10 / 10))
    (String (digit_char (n / 10 / 10)) (String (digit_char (n / 10)) (String (digit_char n) acc))).
Proof.
  intros Hlo Hhi Hfuel.
  destruct fuel as [ | [ | [ | [ | fuel ] ] ] ]; try lia.
  pose proof (Nat.div_le_lower_bound n 10 100 ltac:(lia) ltac:(lia)) as H1.
  pose proof (Nat.div_le_lower_bound (n / 10) 10 10 ltac:(lia) ltac:(lia)) as H2.
  pose proof (Nat.div_le_lower_bound (n / 10 / 10) 10 1 ltac:(lia) ltac:(lia)) as H3.
  pose proof (Nat.Div0.div_lt_upper_bound n 10 1000 ltac:(lia)) as H4.
  pose proof (Nat.Div0.div_lt_upper_bound (n / 10) 10 100 ltac:(lia)) as H5.
  pose proof (Nat.Div0.div_lt_upper_bound (n / 10 / 10) 10 10 ltac:(lia)) as H6.
  cbn [decimal_aux].
  destruct (Nat.ltb_spec n 10); [ lia | ].
  destruct (Nat.ltb_spec (n / 10) 10); [ lia | ].
  destruct (Nat.ltb_spec (n / 10 / 10) 10); [ lia | ].
  destruct (Nat.ltb_spec (n / 10 / 10 / 10) 10); [ reflexivity | lia ].
Qed.

Lemma zero_pad_4 (z : Z) : (1000 <= z <= 9999)%Z -> four_digits (zero_pad 4 z) = true.
Proof.
  intros H. unfold zero_pad, decimal.
  set (n := Z.to_nat z).
  rewrite decimal_aux_4 by lia.
  cbv beta iota zeta delta [String.length Nat.sub zeros append four_digits].
  rewrite !is_digit_digit_char. reflexivity.
Qed.

(** The stamp of a valid date has the shape [YYYYMMDD_HHMMSS]. *)
Lemma strftime_shape (d : DateTime) :
  valid_datetime d = true -> is_timestamp (strftime d) = true.
Proof.
  unfold valid_datetime. rewrite !andb_true_iff, !Z.leb_le.
  intros [[[[[[[[[[[Hy1 Hy2] Hm1] Hm2] Hd1] Hd2] Hh1] Hh2] Hmi1] Hmi2] Hs1] Hs2].
  pose proof (zero_pad_4 (year d) ltac:(lia)) as Y.
  pose proof (zero_pad_2 (month d) ltac:(lia)) as Mo.
  pose proof (zero_pad_2 (day d) ltac:(lia)) as Da.
  pose proof (zero_pad_2 (hour d) ltac:(lia)) as Ho.
  pose proof (zero_pad_2 (minute d) ltac:(lia)) as Mi.
  pose proof (zero_pad_2 (second d) ltac:(lia)) as Se.
  unfold strftime.
  destruct (zero_pad 4 (year d)) as [ | y1 [ | y2 [ | y3 [ | y4 [ | ] ] ] ] ];
    cbv beta iota delta [four_digits] in Y; try discriminate Y.
  destruct (zero_pad 2 (month d)) as [ | m1 [ | m2 [ | ] ] ];
    cbv beta iota delta [two_digits] in Mo; try discriminate Mo.
  destruct (zero_pad 2 (day d)) as [ | d1 [ | d2 [ | ] ] ];
    cbv beta iota delta [two_digits] in Da; try discriminate Da.
  destruct (zero_pad 2 (hour d)) as [ | h1 [ | h2 [ | ] ] ];
    cbv beta iota delta [two_digits] in Ho; try discriminate Ho.
  destruct (zero_pad 2 (minute d)) as [ | i1 [ | i2 [ | ] ] ];
    cbv beta iota delta [two_digits] in Mi; try discriminate Mi.
  destruct (zero_pad 2 (second d)) as [ | s1 [ | s2 [ | ] ] ];
    cbv beta iota delta [two_digits] in Se; try discriminate Se.
  repeat match goal with
         | H : _ && _ = true |- _ => apply andb_true_iff in H; destruct H
         end.
  cbv beta iota zeta delta
    [append is_timestamp String.length substring all_digits Nat.eqb].
  repeat match goal with
         | H : is_digit _ = true |- _ => rewrite H; clear H
         end.
  reflexivity.
Qed.

(** C5: a successful call of [fetch_and_save] (one that returns a
    payload) opened exactly one file and changed no other; the file is in
    the data folder, its name is the prefix, an underscore, the stamp
    [YYYYMMDD_HHMMSS] of the local time (eight digits, an underscore, six
    digits) and [.json]; its contents are the JSON text of the parsed
    response, which parses back to it; and the payload returned is that
    parsed response. *)
Theorem success_writes_one_stamped_file {codec : JsonCodec} (env : Env)
    (self : FetchData.BinanceDataFetcher) (endpoint filename_prefix : string)
    (w w' : World) (payload : Json) :
  FetchData.fetch_and_save env self endpoint filename_prefix w = Ok (Some payload) w' ->
  valid_datetime (localtime env (clock w')) = true ->
  exists (r : Response) (timestamp : string),
    net env (ticks w) (FetchData.base_url self +:+ endpoint) = Responded r /\
    json_loads (text r) = Some payload /\
    timestamp = strftime (localtime env (clock w')) /\
    is_timestamp timestamp = true /\
    let filename := filename_prefix +:+ "_" +:+ timestamp +:+ ".json" in
    let path := os_path_abspath (cwd w) (os_path_join (FetchData.data_folder self) filename) in
    opened (trace w') = opened (trace w) ++ [path] /\
    files w' = <[ path := json_dumps payload ]> (files w) /\
    json_loads (json_dumps payload) = Some payload.
Proof.
  intros Hrun Hvalid.
  revert Hrun.
  cbv beta iota zeta delta
    [FetchData.fetch_and_save FetchData.fetch_and_save_body
     FetchData.fetch_and_save_handler try_except bind ret raise print emit
     requests_get raise_for_status datetime_now open_w response_json
     write_and_close blocking is_RequestException is_Exception].
  repeat split_match; try discriminate; intros Hrun;
    repeat match goal with
           | H : Ok _ _ = Ok _ _ |- _ => inversion H; subst; clear H
           | H : Raised _ _ = Raised _ _ |- _ => inversion H; subst; clear H
           | H : Raised _ _ = Ok _ _ |- _ => discriminate H
           | H : Some _ = Some _ |- _ => inversion H; subst; clear H
           end;
    try discriminate.
  all: cbn [clock ticks cwd files trace log set_clock set_ticks set_files] in *.
  all: eexists; eexists.
  all: split; [ eassumption | ].
  all: split; [ eassumption | ].
  all: split; [ reflexivity | ].
  all: split; [ apply strftime_shape; exact Hvalid | ].
  all: split; [ trace_facts; reflexivity | ].
  all: split; [ | apply json_loads_dumps ].
  all: apply insert_insert_eq.
Qed.

(** C4, as the code has it: with nobody at the keyboard, a connectivity
    error, a timeout, a 4xx or 5xx status (the statuses that
    [raise_for_status] rejects), a body that is not JSON, or a failure to
    open or to write the file is caught inside [fetch_and_save]; the call
    prints the line of the matching [except] clause last and returns
    [None].  Hence a batch always completes and issues its six requests,
    whatever fails in it. *)
Theorem faults_are_caught_and_the_batch_goes_on {codec : JsonCodec} (env : Env)
    (self : FetchData.BinanceDataFetcher) :
  (forall n, interrupt env n = false) ->
  (forall (endpoint filename_prefix : string) (w : World) (e : Exn),
      fault_of_call env (FetchData.base_url self +:+ endpoint) (ticks w) = Some e ->
      exists w',
        FetchData.fetch_and_save env self endpoint filename_prefix w = Ok None w' /\
        exists t, trace w' = t ++ [(clock w', Print (error_message env endpoint e))]) /\
  (forall w : World,
      exists w',
        FetchData.fetch_all_data env self w = Ok tt w' /\
        requests (trace w') =
        requests (trace w) ++ map (fun ep => (GET, FetchData.base_url self +:+ ep)) endpoints).
Proof.
  intros Hi. split.
  - intros endpoint filename_prefix w e Hf. apply fault_is_caught; assumption.
  - intros w. apply batch_completes. exact Hi.
Qed.

(** C8: a batch that runs to its end has issued exactly the six GET
    requests of [batch_requests], in that order, and no request of another
    method; and with nobody at the keyboard every batch runs to its end. *)
Theorem batch_issues_six_gets_in_order {codec : JsonCodec} (env : Env)
    (self : FetchData.BinanceDataFetcher) (w : World) :
  FetchData.base_url self = "https://api.binance.com" ->
  (forall w', FetchData.fetch_all_data env self w = Ok tt w' ->
              requests (trace w') = requests (trace w) ++ batch_requests) /\
  ((forall n, interrupt env n = false) ->
   exists w', FetchData.fetch_all_data env self w = Ok tt w').
Proof.
  intros Hurl. split.
  - intros w' Hrun.
    pose proof (fetch_all_data_outcome env self w) as H.
    rewrite Hrun in H. destruct H as [ Hreq _ _ _ _ _ _ ].
    rewrite Hreq, Hurl. reflexivity.
  - intros Hi. destruct (batch_completes env Hi self w) as (w' & Hrun & _).
    exists w'. exact Hrun.
Qed.

(** ** The constructor and the exit status *)

(** Where the data folder of a process started in [cwd] is. *)
Definition data_folder_for (cwd : string) : string :=
  if endswith cwd "binance_data_fetcher" then "../binance_data" else "binance_data".

(** C10: the constructor chooses the data folder from the working
    directory alone: [../binance_data] when the path of the working
    directory ends with [binance_data_fetcher], [binance_data] otherwise;
    it creates that directory (those that exist stay), touches no file, and
    the two configuration parameters are stored without influence on the
    folder: any other parameters give the same folder at the same absolute
    location. *)
Theorem init_chooses_the_folder_from_cwd {codec : JsonCodec} (env : Env)
    (runtime_hours save_interval_minutes : PyFloat) (w : World) :
  interrupt env (ticks w) = false ->
  makedirs_fails env (ticks w) = false ->
  exists (self : FetchData.BinanceDataFetcher) (w' : World),
    FetchData.init env runtime_hours save_interval_minutes w = Ok self w' /\
    FetchData.data_folder self = data_folder_for (cwd w) /\
    dirs w' = {[ os_path_abspath (cwd w) (data_folder_for (cwd w)) ]} ∪ dirs w /\
    files w' = files w /\ cwd w' = cwd w /\
    FetchData.runtime_hours self = runtime_hours /\
    FetchData.save_interval_minutes self = save_interval_minutes /\
    FetchData.base_url self = "https://api.binance.com" /\
    forall h m : PyFloat,
      exists (self2 : FetchData.BinanceDataFetcher) (w2 : World),
        FetchData.init env h m w = Ok self2 w2 /\
        FetchData.data_folder self2 = FetchData.data_folder self /\
        dirs w2 = dirs w'.
Proof.
  intros Hi Hm.
  unfold FetchData.init, data_folder_for.
  cbv beta iota zeta delta [bind os_getcwd os_makedirs blocking ret raise print emit].
  rewrite Hi, Hm.
  eexists. eexists. split; [ reflexivity | ].
  repeat (split; [ reflexivity | ]).
  intros h m. eexists. eexists. split; [ reflexivity | ]. split; reflexivity.
Qed.

(** C9: the exit status of the program.  It is 1 when the fetcher module
    cannot be imported; otherwise it is 0 when the body of [main] returns
    or is interrupted by Ctrl-C, and 1 when the body raises any other
    exception; the program itself never ends with an exception, and it
    runs out of fuel only if the body of [main] does. *)
Theorem exit_status_of_the_program {codec : JsonCodec} (env : Env) (fuel : nat) (w : World) :
  match Starter.script env fuel w with
  | Ok code w' =>
      if import_fails env then code = 1%Z /\ w' = log (Print MsgImportError) w
      else
        match Starter.main_body env fuel w with
        | Ok _ w1 => code = 0%Z /\ w' = w1
        | Raised KeyboardInterrupt w1 => code = 0%Z /\ w' = log (Print MsgInterrupted) w1
        | Raised e w1 => code = 1%Z /\ w' = log (Print (MsgError e)) w1
        | OutOfFuel => False
        end
  | Raised _ _ => False
  | OutOfFuel => import_fails env = false /\ Starter.main_body env fuel w = OutOfFuel
  end.
Proof.
  unfold Starter.script, Starter.main.
  destruct (import_fails env); [ simpl; split; reflexivity | ].
  unfold try_except. unfold bind at 1.
  destruct (Starter.main_body env fuel w) as [ [] w1 | e w1 | ].
  - simpl. split; reflexivity.
  - destruct e; simpl; split; reflexivity.
  - split; reflexivity.
Qed.

(** ** Runs on the sample environment *)

(** The first request is answered with status 300 and a JSON body. *)
Definition multiple_choices (n : nat) (url : string) : NetReply :=
  Responded {| status_code := 300; text := "7" |}.

(** The request for the 24-hour statistics times out, the others are
    answered. *)
Definition ticker_times_out (n : nat) (url : string) : NetReply :=
  if String.eqb url "https://api.binance.com/api/v3/ticker/24hr" then TimedOut
  else answering n url.

(** Ctrl-C arrives during the blocking call number [k]. *)
Definition ctrl_c_at (k : nat) (n : nat) : bool := (n =? k)%nat.

Definition world_of {A : Type} (r : Res A) (default : World) : World :=
  match r with
  | Ok _ w => w
  | Raised _ w => w
  | OutOfFuel => default
  end.

Section Runs.
#[local] Existing Instance scalar_codec.

(** A response with status 300 is not a 2xx response, yet
    [raise_for_status] lets it pass: the call saves the body and returns
    the payload, where C4 as stated has it return [None]. *)
Lemma non_2xx_is_saved_counterexample :
  exists w',
    FetchData.fetch_and_save (with_net multiple_choices calm) (fetcher (Fin 1) (Fin 60))
      "/api/v3/exchangeInfo" "exchange_info" (boot []) = Ok (Some (SInt 7)) w' /\
    files w' !! "/home/user/project/binance_data/exchange_info_20231114_221320.json"
    = Some "7".
Proof. eexists. split; vm_compute; reflexivity. Qed.

Lemma faults_are_caught_and_the_batch_goes_on_witness :
  (forall (endpoint filename_prefix : string) (w : World) (e : Exn),
      fault_of_call (with_net ticker_times_out calm)
        (FetchData.base_url (fetcher (Fin 1) (Fin 60)) +:+ endpoint) (ticks w) = Some e ->
      exists w',
        FetchData.fetch_and_save (with_net ticker_times_out calm) (fetcher (Fin 1) (Fin 60))
          endpoint filename_prefix w = Ok None w' /\
        exists t,
          trace w' =
          t ++ [(clock w', Print (error_message (with_net ticker_times_out calm) endpoint e))]) /\
  (forall w : World,
      exists w',
        FetchData.fetch_all_data (with_net ticker_times_out calm) (fetcher (Fin 1) (Fin 60)) w
        = Ok tt w' /\
        requests (trace w') =
        requests (trace w) ++
        map (fun ep => (GET, FetchData.base_url (fetcher (Fin 1) (Fin 60)) +:+ ep)) endpoints).
Proof.
  apply (faults_are_caught_and_the_batch_goes_on (with_net ticker_times_out calm)
           (fetcher (Fin 1) (Fin 60))).
  intros n. reflexivity.
Defined.

(** The batch in which the second query times out: the fault is printed,
    all six requests are issued, and the other five snapshots are on
    disk. *)
Example batch_with_a_timeout :
  match FetchData.fetch_all_data (with_net ticker_times_out calm) (fetcher (Fin 1) (Fin 60))
          (boot []) with
  | Ok _ w' =>
      requests (trace w') = batch_requests /\
      In (MsgFetchError "/api/v3/ticker/24hr" Timeout) (prints (trace w')) /\
      map fst (map_to_list (files w')) ≡ₚ
        [ "/home/user/project/binance_data/exchange_info_20231114_221320.json";
          "/home/user/project/binance_data/ticker_price_all_20231114_221320.json";
          "/home/user/project/binance_data/orderbook_BTCUSDT_20231114_221320.json";
          "/home/user/project/binance_data/trades_BTCUSDT_20231114_221320.json";
          "/home/user/project/binance_data/klines_BTCUSDT_1h_20231114_221320.json" ]
  | _ => False
  end.
Proof.
  vm_compute. split; [ reflexivity | ]. split.
  - find_in_list.
  - apply NoDup_Permutation.
    + repeat constructor; rewrite ?elem_of_cons, ?elem_of_nil;
        intros H; repeat destruct H as [ H | H ]; try discriminate H; exact H.
    + repeat constructor; rewrite ?elem_of_cons, ?elem_of_nil;
        intros H; repeat destruct H as [ H | H ]; try discriminate H; exact H.
    + intros x. rewrite !elem_of_cons, !elem_of_nil. tauto.
Qed.

Definition first_fetch : Res (option Json) :=
  FetchData.fetch_and_save calm (fetcher (Fin 1) (Fin 60))
    "/api/v3/exchangeInfo" "exchange_info" (boot []).

Lemma success_writes_one_stamped_file_witness :
  exists (r : Response) (timestamp : string),
    net calm (ticks (boot [])) (FetchData.base_url (fetcher (Fin 1) (Fin 60)) +:+
                                "/api/v3/exchangeInfo") = Responded r /\
    @json_loads scalar_codec (text r) = Some (SInt 0) /\
    timestamp = strftime (localtime calm (clock (world_of first_fetch (boot [])))) /\
    is_timestamp timestamp = true /\
    let filename := "exchange_info" +:+ "_" +:+ timestamp +:+ ".json" in
    let path :=
      os_path_abspath (cwd (boot []))
        (os_path_join (FetchData.data_folder (fetcher (Fin 1) (Fin 60))) filename) in
    opened (trace (world_of first_fetch (boot []))) = opened (trace (boot [])) ++ [path] /\
    files (world_of first_fetch (boot [])) =
      <[ path := @json_dumps scalar_codec (SInt 0) ]> (files (boot [])) /\
    @json_loads scalar_codec (@json_dumps scalar_codec (SInt 0)) = Some (SInt 0).
Proof.
  apply (success_writes_one_stamped_file (codec := scalar_codec) calm (fetcher (Fin 1) (Fin 60))
           "/api/v3/exchangeInfo" "exchange_info" (boot [])
           (world_of first_fetch (boot [])) (SInt 0)).
  - vm_compute. reflexivity.
  - vm_compute. reflexivity.
Defined.

Lemma batch_issues_six_gets_in_order_witness :
  (forall w',
      FetchData.fetch_all_data calm (fetcher (Fin 1) (Fin 60)) (boot []) = Ok tt w' ->
      requests (trace w') = requests (trace (boot [])) ++ batch_requests) /\
  ((forall n, interrupt calm n = false) ->
   exists w', FetchData.fetch_all_data calm (fetcher (Fin 1) (Fin 60)) (boot []) = Ok tt w').
Proof.
  apply (batch_issues_six_gets_in_order calm (fetcher (Fin 1) (Fin 60)) (boot [])).
  reflexivity.
Defined.

Lemma init_chooses_the_folder_from_cwd_witness :
  exists (self : FetchData.BinanceDataFetcher) (w' : World),
    FetchData.init calm (Fin 1) (Fin 60) (boot []) = Ok self w' /\
    FetchData.data_folder self = data_folder_for (cwd (boot [])) /\
    dirs w' =
      {[ os_path_abspath (cwd (boot [])) (data_folder_for (cwd (boot []))) ]} ∪ dirs (boot []) /\
    files w' = files (boot []) /\ cwd w' = cwd (boot []) /\
    FetchData.runtime_hours self = Fin 1 /\
    FetchData.save_interval_minutes self = Fin 60 /\
    FetchData.base_url self = "https://api.binance.com" /\
    forall h m : PyFloat,
      exists (self2 : FetchData.BinanceDataFetcher) (w2 : World),
        FetchData.init calm h m (boot []) = Ok self2 w2 /\
        FetchData.data_folder self2 = FetchData.data_folder self /\
        dirs w2 = dirs w'.
Proof.
  apply (init_chooses_the_folder_from_cwd calm (Fin 1) (Fin 60) (boot [])).
  - reflexivity.
  - reflexivity.
Defined.

(** Started in the project directory or in its [binance_data_fetcher]
    subdirectory, the program writes to the same place; started
    elsewhere, it writes elsewhere. *)
Example data_folder_locations :
  os_path_abspath "/home/user/project" (data_folder_for "/home/user/project")
  = "/home/user/project/binance_data" /\
  os_path_abspath "/home/user/project/binance_data_fetcher"
    (data_folder_for "/home/user/project/binance_data_fetcher")
  = "/home/user/project/binance_data" /\
  os_path_abspath "/tmp" (data_folder_for "/tmp") = "/tmp/binance_data" /\
  os_path_abspath "/srv/old_binance_data_fetcher" (data_folder_for "/srv/old_binance_data_fetcher")
  = "/srv/binance_data".
Proof. vm_compute. repeat split. Qed.

(** C6 fails on the code: a run of 1.08 seconds with an interval of 0.06
    seconds (the console accepts "0.0003" hours and "0.001" minutes) on a
    fast network.  Both batches ask for the exchange information within
    the same second, so the second call opens the file the first one
    wrote: twelve files are opened, seven exist at the end, and the first
    answer (document 0) is gone, replaced by the second (document 24). *)
Theorem same_second_overwrites_a_snapshot :
  match FetchData.run_continuous_fetch calm 3 (fetcher (Fin (3 # 10000)) (Fin (1 # 1000)))
          (boot []) with
  | Ok _ w' =>
      let path := "/home/user/project/binance_data/exchange_info_20231114_221320.json" in
      length (batch_starts (trace w')) = 2%nat /\
      length (opened (trace w')) = 12%nat /\
      count_occ string_dec (opened (trace w')) path = 2%nat /\
      In (WriteAll path "0") (map snd (trace w')) /\
      files w' !! path = Some "24" /\
      size (files w') = 7%nat
  | _ => False
  end.
Proof.
  vm_compute. repeat split.
  find_in_list.
Qed.

(** C7 fails on the code: the console line "nan" parses as a float, NaN
    is not [<= 0], so the first prompt accepts it; [get_user_input]
    returns NaN, which is not greater than 0. *)
Theorem nan_is_accepted_as_runtime :
  Starter.float_of_string "nan" = Some NaN /\
  Float.ltb (Fin 0) NaN = false /\
  exists w',
    Starter.get_user_input calm (boot ["nan"; "5"]) = Ok (NaN, Fin 5) w' /\
    stdin w' = [] /\
    prints (trace w') = [MsgConfigBanner].
Proof.
  split; [ vm_compute; reflexivity | ].
  split; [ reflexivity | ].
  eexists. split; [ vm_compute; reflexivity | ].
  split; reflexivity.
Qed.

(** What follows: the summary cannot be computed from NaN, and the
    program ends with status 1 before it asks for confirmation. *)
Example nan_ends_the_program :
  match Starter.script calm 3 (boot ["nan"; "5"; "y"]) with
  | Ok code w' =>
      code = 1%Z /\ stdin w' = ["y"] /\
      prints (trace w') =
        [MsgWelcome; MsgConfigBanner; MsgSummaryHeader NaN (Fin 5); MsgError ValueError]
  | _ => False
  end.
Proof. vm_compute. repeat split. Qed.

(** The inputs of the spec's test: "-5", "abc" and "0" are turned down
    at both prompts, "2.5" is accepted at both. *)
Example prompts_turn_down_and_accept :
  match Starter.get_user_input calm
          (boot ["-5"; "abc"; "0"; "2.5"; "-5"; "abc"; "0"; "2.5"]) with
  | Ok config w' =>
      config = (Fin (5 # 2), Fin (5 # 2)) /\
      stdin w' = [] /\
      prints (trace w') =
        [MsgConfigBanner; MsgNotPositive; MsgNotNumber; MsgNotPositive;
         MsgNotPositive; MsgNotNumber; MsgNotPositive]
  | _ => False
  end.
Proof. vm_compute. repeat split. Qed.

(** The four ways the program ends: a confirmed run that completes,
    Ctrl-C during the first sleep, the end of the console input, and a
    fetcher module that cannot be imported. *)
Example exit_statuses :
  match Starter.script calm 3 (boot ["0.0003"; "0.001"; "y"]) with
  | Ok code w' => code = 0%Z /\ last (prints (trace w')) = Some MsgSuccess
  | _ => False
  end /\
  match Starter.script (with_interrupt (ctrl_c_at 5) calm) 3 (boot ["0.0003"; "0.001"; "y"]) with
  | Ok code w' => code = 0%Z /\ last (prints (trace w')) = Some MsgInterrupted
  | _ => False
  end /\
  match Starter.script calm 3 (boot ["1"]) with
  | Ok code w' => code = 1%Z /\ last (prints (trace w')) = Some (MsgError EOFError)
  | _ => False
  end /\
  match Starter.script (with_import_failure calm) 3 (boot ["1"; "60"; "y"]) with
  | Ok code w' =>
      code = 1%Z /\ prints (trace w') = [MsgImportError] /\ stdin w' = ["1"; "60"; "y"]
  | _ => False
  end.
Proof. vm_compute. repeat split. Qed.


End Runs.

(** ** The console: prompts *)

Lemma console_only_refl (w : World) : console_only w w.
Proof. constructor; reflexivity. Qed.


Section Console.
Context {codec : JsonCodec} (env : Env).








End Console.

(** ** The console: the summary and its confirmation *)

Section Confirmation.
Context {codec : JsonCodec} (env : Env).










End Confirmation.

(** ** The scheduler: how many batches *)

Section Bounded.
Context {codec : JsonCodec} (env : Env).
Hypothesis no_interrupt : forall n, interrupt env n = false.
Hypothesis latency_nonneg : forall n, (0 <= latency env n)%Q.






End Bounded.

(** ** More on [fetch_and_save] and on the module function [main] *)

Ltac run_fetch_and_save :=
  cbv beta iota zeta delta
    [FetchData.fetch_and_save FetchData.fetch_and_save_body
     FetchData.fetch_and_save_handler try_except bind ret raise print emit
     requests_get raise_for_status datetime_now open_w response_json
     write_and_close blocking is_RequestException is_Exception network_fault
     snapshot_path];
  cbn [ticks clock cwd files dirs trace stdin log set_ticks set_clock set_files].

Ltac tidy_fetch_and_save :=
  cbn [ticks clock cwd files dirs trace stdin log set_ticks set_clock set_files] in *;
  repeat match goal with
         | H : Ok _ _ = Ok _ _ |- _ => inversion H; subst; clear H
         | H : Raised _ _ = Raised _ _ |- _ => inversion H; subst; clear H
         | H : Some _ = Some _ |- _ => inversion H; subst; clear H
         | H : Responded _ = Responded _ |- _ => inversion H; subst; clear H
         | H1 : ?x = true, H2 : ?x = false |- _ => rewrite H1 in H2; discriminate H2
         | H1 : ?x = Some _, H2 : ?x = None |- _ => rewrite H1 in H2; discriminate H2
         end;
  try discriminate; try congruence.

Section MoreFetching.
Context {codec : JsonCodec} (env : Env).

(** X9: a network fault costs one request and leaves no trace on disk.
    When the request fails to connect, times out, or is answered with a 4xx
    or 5xx status, [fetch_and_save] returns [None] after that single
    request (there is no retry); no file is opened, the files and
    directories are as before, and the failure is reported by the
    [RequestException] clause. *)
Theorem network_fault_leaves_the_disk_untouched
    (self : FetchData.BinanceDataFetcher) (endpoint filename_prefix : string)
    (w : World) (e : Exn) :
  interrupt env (ticks w) = false ->
  network_fault (net env (ticks w) (FetchData.base_url self +:+ endpoint)) = Some e ->
  exists w',
    FetchData.fetch_and_save env self endpoint filename_prefix w = Ok None w' /\
    files w' = files w /\ dirs w' = dirs w /\
    opened (trace w') = opened (trace w) /\
    requests (trace w') = requests (trace w) ++ [(GET, FetchData.base_url self +:+ endpoint)] /\
    ticks w' = S (ticks w) /\
    prints (trace w') = prints (trace w) ++ [MsgFetching endpoint; MsgFetchError endpoint e].
Proof.
  intros Hi. run_fetch_and_save. rewrite Hi.
  repeat split_match; intros Hf; tidy_fetch_and_save;
    (eexists; split; [ reflexivity | ]; repeat split; trace_facts; reflexivity).
Qed.

(** X10: a response that passes the status check but whose body is not
    JSON leaves an empty file behind.  [open(filepath, 'w')] runs before
    [response.json()], so when the body does not parse the call returns
    [None] with the snapshot file created empty, or emptied if a snapshot of
    that name was there. *)
Theorem invalid_json_leaves_an_empty_file
    (self : FetchData.BinanceDataFetcher) (endpoint filename_prefix : string)
    (w : World) (r : Response) :
  interrupt env (ticks w) = false ->
  interrupt env (S (ticks w)) = false ->
  open_fails env (S (ticks w)) = false ->
  net env (ticks w) (FetchData.base_url self +:+ endpoint) = Responded r ->
  network_fault (Responded r) = None ->
  json_loads (text r) = None ->
  exists w',
    FetchData.fetch_and_save env self endpoint filename_prefix w = Ok None w' /\
    files w' =
      <[ snapshot_path env self filename_prefix (cwd w) (clock w + latency env (ticks w)) := "" ]>
        (files w) /\
    prints (trace w') =
      prints (trace w) ++
      [MsgFetching endpoint;
       error_message env endpoint JSONDecodeError].
Proof.
  intros Hi Hi' Ho Hn. run_fetch_and_save. unfold error_message, is_RequestException.
  rewrite Hi, Hn. cbv beta iota.
  destruct ((400 <=? status_code r)%Z && (status_code r <? 600)%Z); [ discriminate | ].
  cbn [ticks clock cwd files dirs trace stdin log set_ticks set_clock set_files].
  rewrite Hi', Ho. cbv beta iota.
  cbn [ticks clock cwd files dirs trace stdin log set_ticks set_clock set_files].
  repeat split_match; intros Hf Hj; tidy_fetch_and_save;
    (eexists; split; [ reflexivity | ]; repeat split; trace_facts; reflexivity).
Qed.

(** X11: a write that fails leaves a partial file behind.  When the
    response is fine but writing the file fails after [k] characters,
    [fetch_and_save] returns [None] and the snapshot file holds the first
    [k] characters of the JSON text. *)
Theorem failed_write_leaves_a_partial_file
    (self : FetchData.BinanceDataFetcher) (endpoint filename_prefix : string)
    (w : World) (r : Response) (payload : Json) (k : nat) :
  interrupt env (ticks w) = false ->
  interrupt env (S (ticks w)) = false ->
  interrupt env (S (S (ticks w))) = false ->
  open_fails env (S (ticks w)) = false ->
  net env (ticks w) (FetchData.base_url self +:+ endpoint) = Responded r ->
  network_fault (Responded r) = None ->
  json_loads (text r) = Some payload ->
  write_fails env (S (S (ticks w))) = Some k ->
  exists w',
    FetchData.fetch_and_save env self endpoint filename_prefix w = Ok None w' /\
    files w' =
      <[ snapshot_path env self filename_prefix (cwd w) (clock w + latency env (ticks w)) :=
           substring 0 k (json_dumps payload) ]> (files w) /\
    prints (trace w') = prints (trace w) ++ [MsgFetching endpoint; MsgSaveError OSError].
Proof.
  intros Hi Hi' Hi'' Ho Hn. run_fetch_and_save.
  rewrite Hi, Hn. cbv beta iota.
  destruct ((400 <=? status_code r)%Z && (status_code r <? 600)%Z); [ discriminate | ].
  cbn [ticks clock cwd files dirs trace stdin log set_ticks set_clock set_files].
  rewrite Hi', Ho. cbv beta iota.
  cbn [ticks clock cwd files dirs trace stdin log set_ticks set_clock set_files].
  repeat split_match; intros Hf Hj Hw; tidy_fetch_and_save.
  all: cbn [ticks clock cwd files dirs trace stdin log set_ticks set_clock set_files] in *.
  all: try (rewrite Hi'' in *; discriminate).
  all: try (match goal with
            | H1 : write_fails env ?n = _, H2 : write_fails env ?n = _ |- _ =>
                rewrite H1 in H2; inversion H2; subst
            end).
  all: try discriminate.
  all: eexists; split; [ reflexivity | ]; split;
       [ apply insert_insert_eq | trace_facts; reflexivity ].
Qed.

End MoreFetching.

Section Interrupts.
Context {codec : JsonCodec} (env : Env).


(** X13: the single-fetch mode of the module function [main].  When
    either parameter is missing the other one is ignored and no scheduler
    runs: with nobody pressing Ctrl-C and a data folder that can be
    created, [main] builds the default fetcher and performs exactly one
    batch, the six requests with five pauses of a tenth of a second, and
    returns; it needs no fuel since there is no loop. *)
Theorem main_without_parameters_fetches_once
    (fuel : nat) (runtime_hours save_interval_minutes : option PyFloat) (w : World) :
  (forall n, interrupt env n = false) ->
  makedirs_fails env (ticks w) = false ->
  runtime_hours = None \/ save_interval_minutes = None ->
  FetchData.main env fuel runtime_hours save_interval_minutes w =
  FetchData.main env 0 None None w /\
  exists w',
    FetchData.main env fuel runtime_hours save_interval_minutes w = Ok tt w' /\
    requests (trace w') = requests (trace w) ++ batch_requests /\
    batch_starts (trace w') = batch_starts (trace w) /\
    map snd (sleeps (trace w')) = map snd (sleeps (trace w)) ++ repeat (1 # 10)%Q 5 /\
    dirs w' = {[ os_path_abspath (cwd w) (data_folder_for (cwd w)) ]} ∪ dirs w.
Proof.
  intros Hi Hm Hnone.
  assert (E : FetchData.main env fuel runtime_hours save_interval_minutes w =
              FetchData.main env 0 None None w).
  { destruct Hnone as [ -> | -> ]; [ reflexivity | ].
    destruct runtime_hours; reflexivity. }
  split; [ exact E | ]. rewrite E.
  unfold FetchData.main, FetchData.init.
  cbv beta iota zeta delta [bind os_getcwd os_makedirs blocking ret raise print emit].
  rewrite Hi, Hm.
  cbn [cwd log set_ticks set_dirs].
  set (self := {| FetchData.base_url := "https://api.binance.com";
                  FetchData.data_folder := _;
                  FetchData.runtime_hours := Fin 1;
                  FetchData.save_interval_minutes := Fin 60 |}).
  set (w0 := log (Print MsgSingleStart) _).
  pose proof (fetch_all_data_outcome env self w0) as Hb.
  destruct (FetchData.fetch_all_data env self w0) as [ [] w1 | e w1 | ];
    [ | destruct Hb as [ _ [ n Hn ] ]; rewrite Hi in Hn; discriminate | contradiction ].
  destruct Hb as [ Hreq Hbat _ _ Hdirs _ (ls & Hlen & _ & _ & Hsleeps) ].
  eexists. split; [ reflexivity | ].
  split; [ trace_facts; fold (requests (trace w1)); rewrite Hreq; subst w0; trace_facts;
           reflexivity | ].
  split; [ trace_facts; fold (batch_starts (trace w1)); rewrite Hbat; subst w0; trace_facts;
           reflexivity | ].
  split.
  - trace_facts. fold (sleeps (trace w1)). rewrite Hsleeps. subst w0. trace_facts.
    rewrite map_app. f_equal.
    do 7 (destruct ls as [ | ? ls ]; try discriminate Hlen). reflexivity.
  - cbn [dirs log]. rewrite Hdirs. reflexivity.
Qed.

(** X14: a runtime that is not finite stops [run_continuous_fetch]
    before the first batch.  The deadline cannot be turned into a date:
    after the opening lines the call raises [ValueError] for NaN and
    [OverflowError] for an infinity, whatever the interval and the fuel;
    nothing is requested. *)
Theorem non_finite_runtime_raises_before_the_first_batch
    (fuel : nat) (self : FetchData.BinanceDataFetcher) (w : World) :
  let w0 :=
    log (Print (MsgStarting (FetchData.runtime_hours self)
                  (FetchData.save_interval_minutes self))) w in
  match FetchData.runtime_hours self with
  | Fin _ => True
  | NaN => FetchData.run_continuous_fetch env fuel self w = Raised ValueError w0
  | _ => FetchData.run_continuous_fetch env fuel self w = Raised OverflowError w0
  end.
Proof.
  unfold FetchData.run_continuous_fetch.
  destruct (FetchData.runtime_hours self); [ exact I | reflexivity .. ].
Qed.

End Interrupts.


(** ** The program as a whole *)

Section Program.
Context {codec : JsonCodec} (env : Env).





Hypothesis import_works : import_fails env = false.
Hypothesis no_interrupt : forall n, interrupt env n = false.
Hypothesis folder_can_be_made : forall n, makedirs_fails env n = false.
Hypothesis latency_nonneg : forall n, (0 <= latency env n)%Q.


End Program.

(** ** The properties of the console and of the scheduler, stated *)





(** ** The properties above on the sample environment *)

Section MoreRuns.
#[local] Existing Instance scalar_codec.



(** The summary for 2.5 hours at 60 minutes announces 3 fetches and 18
    files; for NaN hours it raises before the estimates. *)
Example summary_of_150_minutes :
  estimated_fetches (5 # 2) 60 = 3%Z /\
  Starter.display_summary calm NaN (Fin 60) (boot ["y"]) =
  Raised ValueError (log (Print (MsgSummaryHeader NaN (Fin 60))) (boot ["y"])).
Proof. split; vm_compute; reflexivity. Qed.





Lemma network_fault_leaves_the_disk_untouched_witness :
  exists w',
    FetchData.fetch_and_save (with_net ticker_times_out calm) (fetcher (Fin 1) (Fin 60))
      "/api/v3/ticker/24hr" "ticker_24hr_all" (boot []) = Ok None w' /\
    files w' = files (boot []) /\ dirs w' = dirs (boot []) /\
    opened (trace w') = opened (trace (boot [])) /\
    requests (trace w') =
      requests (trace (boot [])) ++
      [(GET, FetchData.base_url (fetcher (Fin 1) (Fin 60)) +:+ "/api/v3/ticker/24hr")] /\
    ticks w' = S (ticks (boot [])) /\
    prints (trace w') =
      prints (trace (boot [])) ++
      [MsgFetching "/api/v3/ticker/24hr"; MsgFetchError "/api/v3/ticker/24hr" Timeout].
Proof.
  apply (network_fault_leaves_the_disk_untouched (with_net ticker_times_out calm)
           (fetcher (Fin 1) (Fin 60)) "/api/v3/ticker/24hr" "ticker_24hr_all" (boot []) Timeout).
  - reflexivity.
  - reflexivity.
Defined.

Lemma invalid_json_leaves_an_empty_file_witness :
  exists w',
    FetchData.fetch_and_save (with_net garbled calm) (fetcher (Fin 1) (Fin 60))
      "/api/v3/exchangeInfo" "exchange_info" (boot []) = Ok None w' /\
    files w' =
      <[ snapshot_path (with_net garbled calm) (fetcher (Fin 1) (Fin 60)) "exchange_info"
           (cwd (boot [])) (clock (boot []) + latency (with_net garbled calm) (ticks (boot [])))
         := "" ]> (files (boot [])) /\
    prints (trace w') =
      prints (trace (boot [])) ++
      [MsgFetching "/api/v3/exchangeInfo";
       error_message (with_net garbled calm) "/api/v3/exchangeInfo" JSONDecodeError].
Proof.
  apply (invalid_json_leaves_an_empty_file (with_net garbled calm) (fetcher (Fin 1) (Fin 60))
           "/api/v3/exchangeInfo" "exchange_info" (boot [])
           {| status_code := 200; text := "<html>" |});
    reflexivity.
Defined.

Lemma failed_write_leaves_a_partial_file_witness :
  exists w',
    FetchData.fetch_and_save (disk_full_after 2 (with_net five_digits calm))
      (fetcher (Fin 1) (Fin 60)) "/api/v3/exchangeInfo" "exchange_info" (boot []) = Ok None w' /\
    files w' =
      <[ snapshot_path (disk_full_after 2 (with_net five_digits calm)) (fetcher (Fin 1) (Fin 60))
           "exchange_info" (cwd (boot []))
           (clock (boot []) +
            latency (disk_full_after 2 (with_net five_digits calm)) (ticks (boot [])))
         := substring 0 2 (@json_dumps scalar_codec (SInt 12345)) ]> (files (boot [])) /\
    prints (trace w') =
      prints (trace (boot [])) ++ [MsgFetching "/api/v3/exchangeInfo"; MsgSaveError OSError].
Proof.
  apply (failed_write_leaves_a_partial_file (codec := scalar_codec)
           (disk_full_after 2 (with_net five_digits calm)) (fetcher (Fin 1) (Fin 60))
           "/api/v3/exchangeInfo" "exchange_info" (boot [])
           {| status_code := 200; text := "12345" |} (SInt 12345) 2);
    reflexivity.
Defined.

(** The two files of the witnesses above, computed: the page that is not
    JSON leaves an empty snapshot, the full disk leaves the first two
    characters. *)
Example files_left_by_failed_calls :
  files (world_of (FetchData.fetch_and_save (with_net garbled calm) (fetcher (Fin 1) (Fin 60))
                     "/api/v3/exchangeInfo" "exchange_info" (boot [])) (boot []))
    !! "/home/user/project/binance_data/exchange_info_20231114_221320.json" = Some "" /\
  files (world_of (FetchData.fetch_and_save (disk_full_after 2 (with_net five_digits calm))
                     (fetcher (Fin 1) (Fin 60))
                     "/api/v3/exchangeInfo" "exchange_info" (boot [])) (boot []))
    !! "/home/user/project/binance_data/exchange_info_20231114_221320.json" = Some "12".
Proof. split; vm_compute; reflexivity. Qed.


Lemma main_without_parameters_fetches_once_witness :
  FetchData.main calm 7 None (Some (Fin 5)) (boot []) = FetchData.main calm 0 None None (boot []) /\
  exists w',
    FetchData.main calm 7 None (Some (Fin 5)) (boot []) = Ok tt w' /\
    requests (trace w') = requests (trace (boot [])) ++ batch_requests /\
    batch_starts (trace w') = batch_starts (trace (boot [])) /\
    map snd (sleeps (trace w')) = map snd (sleeps (trace (boot []))) ++ repeat (1 # 10)%Q 5 /\
    dirs w' = {[ os_path_abspath (cwd (boot [])) (data_folder_for (cwd (boot []))) ]} ∪ dirs (boot []).
Proof.
  apply (main_without_parameters_fetches_once calm 7 None (Some (Fin 5)) (boot [])).
  - intros n. reflexivity.
  - reflexivity.
  - left. reflexivity.
Defined.


End MoreRuns.
